(** * Lottus: the window-resolution and session-transition engine

    A shallow embedding of [src/lottus.py].  The program manipulates
    loosely typed Python objects ([dict]s and [list]s that are shared and
    mutated in place), so the development is layered:

    - [Py]: the fragment of Python's object model the program exercises
      (values, a heap of mutable containers, subscription, item assignment,
      [in], [==], truthiness, iteration, and the exceptions they raise);
    - [Lottus]: the application object and its functions, line by line;
      the session manager, the window cache and the window processors are
      parameters;
    - [Spec]: the resolution order as the specification words it;
    - [Scenario]: a small application with a dict-backed session manager
      and cache, on which the results are instantiated;
    - [Shape]: the well-formedness conditions the statements use;
    - [PyFacts] and the properties of the engine. *)

From stdpp Require Import gmap strings list fin_maps.

Local Open Scope string_scope.

(** ** The Python fragment *)

Module Py.

(** Objects live at heap locations; a value is either an immutable scalar
    or a reference to a container. *)
Definition loc := positive.
Bind Scope positive_scope with loc.

Inductive pyval :=
  | PNone
  | PBool (b : bool)
  | PStr (s : string)
  | PRef (l : loc).

#[global] Instance pyval_eq_dec : EqDecision pyval.
Proof. solve_decision. Defined.

Definition pyval_enc (v : pyval) : unit + bool + string + loc :=
  match v with
  | PNone => inl (inl (inl tt))
  | PBool b => inl (inl (inr b))
  | PStr s => inl (inr s)
  | PRef l => inr l
  end.

Definition pyval_dec (x : unit + bool + string + loc) : pyval :=
  match x with
  | inl (inl (inl _)) => PNone
  | inl (inl (inr b)) => PBool b
  | inl (inr s) => PStr s
  | inr l => PRef l
  end.

#[global] Instance pyval_countable : Countable pyval.
Proof. apply (inj_countable' pyval_enc pyval_dec). by intros []. Defined.

(** A [dict] maps hashable values to values; a [list] is a sequence; any
    other object (a session manager, a function, ...) is opaque.  The
    outcome of the program's two loops never depends on the order in which
    the keys of a dict come (see [iter_items]), so a finite map is
    enough. *)
Inductive pyobj :=
  | PDict (d : gmap pyval pyval)
  | PList (xs : list pyval)
  | PObject.

#[global] Instance pyobj_eq_dec : EqDecision pyobj.
Proof. solve_decision. Defined.

Abbreviation heap := (gmap loc pyobj).

Inductive exn :=
  | KeyError
  | TypeError
  | IndexError
  | UnboundLocalError
  | RecursionError
  | Other (msg : string).

Inductive outcome (A : Type) :=
  | Ok (a : A)
  | Raise (e : exn).
Arguments Ok {A} a.
Arguments Raise {A} e.

#[global] Instance exn_eq_dec : EqDecision exn.
Proof. solve_decision. Defined.

#[global] Instance outcome_eq_dec {A} `{EqDecision A} : EqDecision (outcome A).
Proof. solve_decision. Defined.

(** Computations thread the heap and may raise. *)
Definition M (A : Type) : Type := heap → outcome A * heap.

Definition ret {A} (a : A) : M A := λ h, (Ok a, h).
Definition raise {A} (e : exn) : M A := λ h, (Raise e, h).
Definition bind {A B} (m : M A) (k : A → M B) : M B :=
  λ h, match m h with
       | (Ok a, h') => k a h'
       | (Raise e, h') => (Raise e, h')
       end.
Definition lift {A} (f : heap → outcome A) : M A := λ h, (f h, h).

Declare Scope py_scope.
Delimit Scope py_scope with py.
Notation "'let!' x ':=' m 'in' k" := (bind m (λ x, k))
  (at level 10, x pattern, m at level 100, k at level 200) : py_scope.
Notation "m1 ';;' m2" := (bind m1 (λ _, m2))
  (at level 100, m2 at level 200, right associativity) : py_scope.

(** An opaque object is hashable, truthy, compared by identity, and
    supports neither subscription nor iteration.  A reference to a location
    the heap does not hold is treated the same way. *)
Definition py_hashable (h : heap) (v : pyval) : bool :=
  match v with
  | PRef l =>
      match h !! l with
      | Some (PDict _) | Some (PList _) => false
      | Some PObject | None => true
      end
  | _ => true
  end.

(** [bool(v)] *)
Definition py_truthy (h : heap) (v : pyval) : bool :=
  match v with
  | PNone => false
  | PBool b => b
  | PStr s => negb (bool_decide (s = EmptyString))
  | PRef l =>
      match h !! l with
      | Some (PDict d) => negb (bool_decide (d = ∅))
      | Some (PList xs) => negb (bool_decide (xs = []))
      | Some PObject | None => true
      end
  end.

(** [True] and [False] are the integers 1 and 0 when used as an index. *)
Definition bool_index (b : bool) : nat := if b then 1 else 0.

Definition str_at (s : string) (i : nat) : option pyval :=
  (λ c, PStr (String c EmptyString)) <$> String.get i s.

(** [v[k]] *)
Definition getitem (h : heap) (v k : pyval) : outcome pyval :=
  match v with
  | PRef l =>
      match h !! l with
      | Some (PDict d) =>
          if py_hashable h k
          then match d !! k with Some x => Ok x | None => Raise KeyError end
          else Raise TypeError
      | Some (PList xs) =>
          match k with
          | PBool b => match xs !! bool_index b with
                       | Some x => Ok x
                       | None => Raise IndexError
                       end
          | _ => Raise TypeError
          end
      | Some PObject | None => Raise TypeError
      end
  | PStr s =>
      match k with
      | PBool b => match str_at s (bool_index b) with
                   | Some x => Ok x
                   | None => Raise IndexError
                   end
      | _ => Raise TypeError
      end
  | PNone | PBool _ => Raise TypeError
  end.

Definition py_getitem (v k : pyval) : M pyval := lift (λ h, getitem h v k).

(** [v[k] = x] *)
Definition py_setitem (v k x : pyval) : M unit :=
  λ h,
    match v with
    | PRef l =>
        match h !! l with
        | Some (PDict d) =>
            if py_hashable h k
            then (Ok (), <[l := PDict (<[k := x]> d)]> h)
            else (Raise TypeError, h)
        | Some (PList xs) =>
            match k with
            | PBool b =>
                if decide (bool_index b < length xs)
                then (Ok (), <[l := PList (<[bool_index b := x]> xs)]> h)
                else (Raise IndexError, h)
            | _ => (Raise TypeError, h)
            end
        | Some PObject | None => (Raise TypeError, h)
        end
    | _ => (Raise TypeError, h)
    end.

(** Allocation of a new container. *)
Definition py_alloc (o : pyobj) : M pyval :=
  λ h, let l := fresh (dom h) in (Ok (PRef l), <[l := o]> h).

(** [a == b].  Scalars compare by value, containers structurally (with the
    interpreter's identity shortcut), other objects by identity.  The depth
    of the structural comparison is bounded by the interpreter's recursion
    limit; the order in which the entries of two dicts are compared is only
    observable when that limit is hit. *)
Definition recursion_limit : nat := 1000.

Fixpoint all_eq (eq : pyval → pyval → outcome bool) (xs ys : list pyval)
  : outcome bool :=
  match xs, ys with
  | [], [] => Ok true
  | x :: xs', y :: ys' =>
      match eq x y with
      | Ok true => all_eq eq xs' ys'
      | r => r
      end
  | _, _ => Ok false
  end.

Fixpoint all_in (eq : pyval → pyval → outcome bool) (d2 : gmap pyval pyval)
    (kvs : list (pyval * pyval)) : outcome bool :=
  match kvs with
  | [] => Ok true
  | (k, x) :: rest =>
      match d2 !! k with
      | None => Ok false
      | Some y => match eq x y with
                  | Ok true => all_in eq d2 rest
                  | r => r
                  end
      end
  end.

Fixpoint eq_depth (fuel : nat) (h : heap) (a b : pyval) : outcome bool :=
  match a, b with
  | PRef la, PRef lb =>
      if decide (la = lb) then Ok true else
      match h !! la, h !! lb with
      | Some (PList xs), Some (PList ys) =>
          match fuel with
          | O => Raise RecursionError
          | S n => if decide (length xs = length ys)
                   then all_eq (eq_depth n h) xs ys else Ok false
          end
      | Some (PDict d1), Some (PDict d2) =>
          match fuel with
          | O => Raise RecursionError
          | S n => if decide (size d1 = size d2)
                   then all_in (eq_depth n h) d2 (map_to_list d1) else Ok false
          end
      | _, _ => Ok false
      end
  | _, _ => Ok (bool_decide (a = b))
  end.

Definition eq_val (h : heap) (a b : pyval) : outcome bool :=
  eq_depth recursion_limit h a b.

Definition py_eq (a b : pyval) : M bool := lift (λ h, eq_val h a b).

(** Substring test, for [k in s] on strings. *)
Fixpoint str_contains (needle hay : string) : bool :=
  String.prefix needle hay ||
  match hay with
  | EmptyString => false
  | String _ rest => str_contains needle rest
  end.

Fixpoint any_eq (eq : pyval → pyval → outcome bool) (k : pyval)
    (xs : list pyval) : outcome bool :=
  match xs with
  | [] => Ok false
  | x :: rest =>
      match eq x k with
      | Ok false => any_eq eq k rest
      | r => r
      end
  end.

(** [k in v] *)
Definition contains (h : heap) (k v : pyval) : outcome bool :=
  match v with
  | PRef l =>
      match h !! l with
      | Some (PDict d) =>
          if py_hashable h k then Ok (bool_decide (is_Some (d !! k)))
          else Raise TypeError
      | Some (PList xs) => any_eq (eq_val h) k xs
      | Some PObject | None => Raise TypeError
      end
  | PStr s =>
      match k with
      | PStr n => Ok (str_contains n s)
      | _ => Raise TypeError
      end
  | PNone | PBool _ => Raise TypeError
  end.

Definition py_contains (k v : pyval) : M bool := lift (λ h, contains h k v).

Fixpoint str_chars (s : string) : list pyval :=
  match s with
  | EmptyString => []
  | String c rest => PStr (String c EmptyString) :: str_chars rest
  end.

(** The items [for x in v] visits: the elements of a list, the keys of a
    dict, the characters of a string.  The keys of a dict are scalars or
    opaque objects: subscripting any of them raises [TypeError], and
    [option_response] allocates for none of them, so neither
    [get_selected_option] nor [window_response] can tell in which order
    they come. *)
Definition iter_items (h : heap) (v : pyval) : outcome (list pyval) :=
  match v with
  | PRef l =>
      match h !! l with
      | Some (PList xs) => Ok xs
      | Some (PDict d) => Ok (map_to_list d).*1
      | Some PObject | None => Raise TypeError
      end
  | PStr s => Ok (str_chars s)
  | PNone | PBool _ => Raise TypeError
  end.

Definition py_iter (v : pyval) : M (list pyval) := lift (λ h, iter_items h v).

Definition py_bool (v : pyval) : M bool := lift (λ h, Ok (py_truthy h v)).

(** Dict displays [{k1: v1, ...}] *)
Definition dict_of (kvs : list (string * pyval)) : gmap pyval pyval :=
  list_to_map (prod_map PStr id <$> kvs).

End Py.

(** ** The application *)

Module Lottus.
Import Py.
Local Open Scope py_scope.

(** The two collaborator interfaces.  Their methods are arbitrary
    application code: they may read, mutate and allocate heap objects, and
    may raise. *)
Record SessionManager := {
  sm_get : pyval → pyval → M pyval;
  sm_save : pyval → M pyval;
  sm_finish : pyval → M pyval
}.

Record WindowCache := {
  wc_get : pyval → pyval → M pyval;
  wc_cache : pyval → pyval → M pyval;
  wc_delete : pyval → pyval → M pyval
}.

(** The bodies of the base classes are [pass]: every method returns
    [None]. *)
Definition SessionManager_base : SessionManager :=
  {| sm_get := λ _ _, ret PNone;
     sm_save := λ _, ret PNone;
     sm_finish := λ _, ret PNone |}.

Definition WindowCache_base : WindowCache :=
  {| wc_get := λ _ _, ret PNone;
     wc_cache := λ _ _, ret PNone;
     wc_delete := λ _ _, ret PNone |}.

(** A window processor registered with the [window] decorator: called with
    the session and the request, it returns a window and a session. *)
Definition processor := pyval → pyval → M (pyval * pyval).

Record Lottus := {
  initial_window : pyval;
  windows : pyval;
  session_manager : SessionManager;
  window_cache : option WindowCache;
  mapped_windows : gmap pyval processor
}.

(** [Lottus.__init__] *)
Definition init (initial_window windows : pyval)
    (session_manager : SessionManager) (window_cache : option WindowCache)
  : Lottus :=
  {| initial_window := initial_window;
     windows := windows;
     session_manager := session_manager;
     window_cache := window_cache;
     mapped_windows := ∅ |}.

(** [Lottus.add_window_rule]; the [window] decorator registers its function
    through it. *)
Definition add_window_rule (self : Lottus) (window_name : pyval)
    (f : processor) : Lottus :=
  {| initial_window := initial_window self;
     windows := windows self;
     session_manager := session_manager self;
     window_cache := window_cache self;
     mapped_windows := <[window_name := f]> (mapped_windows self) |}.

(** [create_session] *)
Definition create_session (session_nr cell_nr window_name variables : pyval)
  : M pyval :=
  py_alloc (PDict (dict_of [("session_nr", session_nr);
                            ("variables", variables);
                            ("cell_nr", cell_nr);
                            ("window", window_name)])).

(** [create_request] *)
Definition create_request (session_nr cell_nr request_str : pyval) : M pyval :=
  py_alloc (PDict (dict_of [("session_nr", session_nr);
                            ("cell_nr", cell_nr);
                            ("request_str", request_str)])).

(** The dict display [create_window] returns. *)
Definition window_fields (name title message options active window_type : pyval)
  : gmap pyval pyval :=
  dict_of [("name", name);
           ("message", message);
           ("title", title);
           ("options", options);
           ("active", active);
           ("type", window_type)].

(** [create_window]: the [required] argument is accepted and not used. *)
Definition create_window
    (name title message options required active window_type : pyval)
  : M pyval :=
  py_alloc (PDict (window_fields name title message options active
                     window_type)).

(** [create_option] *)
Definition create_option (option display window active : pyval) : M pyval :=
  py_alloc (PDict (dict_of [("option", option);
                            ("display", display);
                            ("window", window);
                            ("active", active)])).

(** [create_required] *)
Definition create_required
    (variable window in_options var_type var_length : pyval) : M pyval :=
  py_alloc (PDict (dict_of [("var", variable);
                            ("window", window);
                            ("in_options", in_options);
                            ("type", var_type);
                            ("length", var_length)])).

(** [create_error_window] *)
Definition create_error_window (message : pyval) : M pyval :=
  create_window (PStr "ERROR") (PStr "ERROR") message PNone PNone
    (PBool true) (PStr "MESSAGE").

Definition invalid_option_message : pyval :=
  PStr "Please select a valid option".

(** [k in self.mapped_windows] *)
Definition in_mapped_windows (self : Lottus) (k : pyval) : M bool :=
  lift (λ h, if py_hashable h k
             then Ok (bool_decide (is_Some (mapped_windows self !! k)))
             else Raise TypeError).

(** [Lottus.get_window] *)
Definition get_window (self : Lottus) (window_name : pyval) : M pyval :=
  let! found := py_contains window_name (windows self) in
  if (found : bool) then py_getitem (windows self) window_name else ret PNone.

(** [Lottus.get_mapped_window]: when no processor is registered the local
    [window] is read before it was ever bound. *)
Definition get_mapped_window (self : Lottus)
    (window_name session request : pyval) : M (pyval * pyval) :=
  let! registered := in_mapped_windows self window_name in
  if (registered : bool) then
    match (mapped_windows self !! window_name : option processor) with
    | Some processor => processor session request
    | None => raise KeyError
    end
  else raise UnboundLocalError.

(** The generator [(s for s in options if s['option'] == request['request_str'])]
    advanced once by [next(..., None)]. *)
Fixpoint next_match (request : pyval) (items : list pyval) : M pyval :=
  match items with
  | [] => ret PNone
  | s :: rest =>
      let! o := py_getitem s (PStr "option") in
      let! r := py_getitem request (PStr "request_str") in
      let! same := py_eq o r in
      if (same : bool) then ret s else next_match request rest
  end.

(** [Lottus.get_selected_option] *)
Definition get_selected_option (self : Lottus) (window request : pyval)
  : M pyval :=
  let! options := py_getitem window (PStr "options") in
  let! items := py_iter options in
  next_match request items.

(** [Lottus.process_window], lines 76-90: the window the session is at.
    The second cache lookup leaves [session_nr] at its default, [None]. *)
Definition process_window_resolve (self : Lottus) (session request : pyval)
  : M pyval :=
  let! actual_window_name := py_getitem session (PStr "window") in
  let! actual_window :=
    match window_cache self with
    | Some cache =>
        let! session_nr := py_getitem request (PStr "session_nr") in
        let! actual_window := wc_get cache actual_window_name session_nr in
        if decide (actual_window = PNone)
        then wc_get cache actual_window_name PNone
        else ret actual_window
    | None => ret PNone
    end in
  let! actual_window :=
    if decide (actual_window = PNone) then
      let! registered := in_mapped_windows self actual_window_name in
      if (registered : bool) then
        let! (actual_window, old_session) :=
          get_mapped_window self actual_window_name session request in
        ret actual_window
      else ret actual_window
    else ret actual_window in
  if decide (actual_window = PNone)
  then get_window self actual_window_name
  else ret actual_window.

(** [session['variables'][required['var']] = value] *)
Definition capture (session required value : pyval) : M unit :=
  let! variables := py_getitem session (PStr "variables") in
  let! var := py_getitem required (PStr "var") in
  py_setitem variables var value.

(** Lines 121-133: the window declares no [required]. *)
Definition process_window_select (self : Lottus)
    (actual_window session request session_nr : pyval) : M (pyval * pyval) :=
  let! selected_option := get_selected_option self actual_window request in
  if decide (selected_option = PNone) then
    py_setitem actual_window (PStr "message") invalid_option_message ;;
    ret (actual_window, session)
  else
    let! target := py_getitem selected_option (PStr "window") in
    let! registered := in_mapped_windows self target in
    if (registered : bool) then
      let! target := py_getitem selected_option (PStr "window") in
      let! (window, session) :=
        get_mapped_window self target session request in
      match window_cache self with
      | Some cache =>
          wc_cache cache window session_nr ;; ret (window, session)
      | None => ret (window, session)
      end
    else
      let! target := py_getitem selected_option (PStr "window") in
      let! window := get_window self target in
      ret (window, session).

(** Lines 102-119: the window declares [required]. *)
Definition process_window_required (self : Lottus)
    (actual_window required session request request_str : pyval)
  : M (pyval * pyval) :=
  let! has_window := py_contains (PStr "window") required in
  if (has_window : bool) then
    let! has_in_options := py_contains (PStr "in_options") required in
    let! in_options :=
      if (has_in_options : bool) then
        let! flag := py_getitem required (PStr "in_options") in
        py_eq flag (PBool true)
      else ret false in
    let! window :=
      if (in_options : bool) then
        let! selected_option :=
          get_selected_option self actual_window request in
        let! chosen := py_bool selected_option in
        if (chosen : bool) then
          let! has_value := py_contains (PStr "value") selected_option in
          (if (has_value : bool) then
             let! value := py_getitem selected_option (PStr "value") in
             capture session required value
           else
             let! value := py_getitem selected_option (PStr "option") in
             capture session required value) ;;
          ret PNone
        else
          py_setitem actual_window (PStr "message") invalid_option_message ;;
          ret actual_window
      else
        capture session required request_str ;;
        ret PNone in
    let! target := py_getitem required (PStr "window") in
    let! window := get_window self target in
    ret (window, session)
  else
    create_error_window (PStr "Error processing your request") ;;
    ret (PNone, session).

(** Lines 92-135: the transition out of the resolved window. *)
Definition process_window_transition (self : Lottus)
    (actual_window session request : pyval) : M (pyval * pyval) :=
  let! options := py_getitem actual_window (PStr "options") in
  let! window_type := py_getitem actual_window (PStr "type") in
  let! active := py_getitem actual_window (PStr "active") in
  let! has_required := py_contains (PStr "required") actual_window in
  let! required :=
    if (has_required : bool)
    then py_getitem actual_window (PStr "required")
    else ret PNone in
  let! session_nr := py_getitem request (PStr "session_nr") in
  let! request_str := py_getitem request (PStr "request_str") in
  let! cell_nr := py_getitem request (PStr "cell_nr") in
  if decide (required = PNone)
  then process_window_select self actual_window session request session_nr
  else process_window_required self actual_window required session request
         request_str.

(** [Lottus.process_window] *)
Definition process_window (self : Lottus) (session request : pyval)
  : M (pyval * pyval) :=
  let! actual_window := process_window_resolve self session request in
  process_window_transition self actual_window session request.

(** Lines 65-68 of [process_request]: point the session at the window,
    save it and answer with the window. *)
Definition process_request_finish (self : Lottus) (window session : pyval)
  : M pyval :=
  let! name := py_getitem window (PStr "name") in
  py_setitem session (PStr "window") name ;;
  sm_save (session_manager self) session ;;
  ret window.

(** [Lottus.process_request].  Line 58 tests the truth value of the cache
    where lines 80 and 130 compare it with [None]; a cache object is
    truthy, so the three tests agree. *)
Definition process_request (self : Lottus) (request : pyval) : M pyval :=
  let! session_nr := py_getitem request (PStr "session_nr") in
  let! request_str := py_getitem request (PStr "request_str") in
  let! cell_nr := py_getitem request (PStr "cell_nr") in
  let! session := sm_get (session_manager self) session_nr cell_nr in
  let! (window, session) :=
    if decide (session = PNone) then
      let! session :=
        create_session session_nr cell_nr (initial_window self) PNone in
      let! registered := in_mapped_windows self (initial_window self) in
      if (registered : bool) then
        let! (window, session) :=
          get_mapped_window self (initial_window self) session request in
        match window_cache self with
        | Some cache =>
            wc_cache cache window session_nr ;; ret (window, session)
        | None => ret (window, session)
        end
      else
        let! window := get_window self (initial_window self) in
        ret (window, session)
    else process_window self session request in
  process_request_finish self window session.

(** The dict displays of the two response functions. *)
Definition option_fields (option value : pyval) : gmap pyval pyval :=
  dict_of [("option", option); ("value", value)].

Definition response_fields (message title options : pyval)
  : gmap pyval pyval :=
  dict_of [("message", message); ("title", title); ("options", options)].

(** [option_response] *)
Definition option_response (option : pyval) : M pyval :=
  let! present := py_bool option in
  if (present : bool) then
    let! o := py_getitem option (PStr "option") in
    let! v := py_getitem option (PStr "display") in
    py_alloc (PDict (option_fields o v))
  else ret PNone.

(** The list comprehension [[option_response(x) for x in items]]. *)
Fixpoint option_responses (items : list pyval) : M (list pyval) :=
  match items with
  | [] => ret []
  | x :: rest =>
      let! r := option_response x in
      let! rs := option_responses rest in
      ret (r :: rs)
  end.

(** [window_response] *)
Definition window_response (window : pyval) : M pyval :=
  let! present := py_bool window in
  if (present : bool) then
    let! has_message := py_contains (PStr "message") window in
    let! message :=
      if (has_message : bool) then py_getitem window (PStr "message")
      else ret PNone in
    let! has_title := py_contains (PStr "title") window in
    let! title :=
      if (has_title : bool) then py_getitem window (PStr "title")
      else ret PNone in
    let! has_options := py_contains (PStr "options") window in
    let! options :=
      if (has_options : bool) then
        let! source := py_getitem window (PStr "options") in
        let! items := py_iter source in
        let! rs := option_responses items in
        py_alloc (PList rs)
      else py_alloc (PList []) in
    py_alloc (PDict (response_fields message title options))
  else ret PNone.

End Lottus.

(** ** The resolution order in the words of the specification *)

Module Spec.
Import Py Lottus.
Local Open Scope py_scope.

(** Try the attempts in order and use the first result that is not
    absent. *)
Fixpoint first_present (attempts : list (M pyval)) : M pyval :=
  match attempts with
  | [] => ret PNone
  | attempt :: rest =>
      let! w := attempt in
      if decide (w = PNone) then first_present rest else ret w
  end.

(** (a) window-cache lookup scoped to this session number *)
Definition cache_scoped (self : Lottus) (name request : pyval) : M pyval :=
  match window_cache self with
  | Some cache =>
      let! session_nr := py_getitem request (PStr "session_nr") in
      wc_get cache name session_nr
  | None => ret PNone
  end.

(** (b) window-cache lookup unscoped *)
Definition cache_unscoped (self : Lottus) (name : pyval) : M pyval :=
  match window_cache self with
  | Some cache => wc_get cache name PNone
  | None => ret PNone
  end.

(** (c) dynamic resolver if registered for that name *)
Definition dynamic_resolver (self : Lottus) (name session request : pyval)
  : M pyval :=
  let! registered := in_mapped_windows self name in
  if (registered : bool) then
    let! (window, _) := get_mapped_window self name session request in
    ret window
  else ret PNone.

(** (d) static registry *)
Definition static_registry (self : Lottus) (name : pyval) : M pyval :=
  get_window self name.

Definition resolve_in_order (self : Lottus) (session request : pyval)
  : M pyval :=
  let! name := py_getitem session (PStr "window") in
  first_present [cache_scoped self name request;
                 cache_unscoped self name;
                 dynamic_resolver self name session request;
                 static_registry self name].

End Spec.

(** ** A small application used to exercise the engine *)

Module Scenario.
Import Py Lottus.
Local Open Scope py_scope.
Local Open Scope positive_scope.

(** A session manager that keeps the sessions in a dict indexed by session
    number. *)
Definition DictSessionManager (store : pyval) : SessionManager :=
  {| sm_get := λ session_nr cell_nr,
       let! known := py_contains session_nr store in
       if (known : bool) then py_getitem store session_nr else ret PNone;
     sm_save := λ session,
       let! session_nr := py_getitem session (PStr "session_nr") in
       py_setitem store session_nr session ;; ret PNone;
     sm_finish := λ session, ret PNone |}.


(** The windows of the static registry.  HOME is a plain menu; W asks for
    a city among its options; AGE asks for free text; NEXT is a closing
    message; the required spec of BROKEN names no target window. *)
Definition home_window : gmap pyval pyval :=
  dict_of [("name", PStr "HOME"); ("message", PStr "Welcome");
           ("title", PStr "Lottus"); ("options", PRef 10);
           ("active", PBool true); ("type", PStr "FORM")].

Definition home_options : list pyval := [PRef 11; PRef 12; PRef 19].

Definition option_city : gmap pyval pyval :=
  dict_of [("option", PStr "1"); ("display", PStr "Choose a city");
           ("window", PStr "W"); ("active", PBool true)].

Definition option_age : gmap pyval pyval :=
  dict_of [("option", PStr "2"); ("display", PStr "Enter an age");
           ("window", PStr "AGE"); ("active", PBool true)].

Definition option_help : gmap pyval pyval :=
  dict_of [("option", PStr "3"); ("display", PStr "Help");
           ("window", PStr "HELP"); ("active", PBool true)].

Definition city_window : gmap pyval pyval :=
  dict_of [("name", PStr "W"); ("message", PStr "Select your city");
           ("title", PStr "City"); ("options", PRef 13);
           ("active", PBool true); ("type", PStr "FORM");
           ("required", PRef 15)].

Definition city_options : list pyval := [PRef 14].

Definition option_maputo : gmap pyval pyval :=
  dict_of [("option", PStr "1"); ("display", PStr "Maputo");
           ("window", PStr "NEXT"); ("active", PBool true)].

Definition city_required : gmap pyval pyval :=
  dict_of [("var", PStr "city"); ("window", PStr "NEXT");
           ("in_options", PBool true); ("type", PStr "numeric");
           ("length", PStr "11")].

Definition age_window : gmap pyval pyval :=
  dict_of [("name", PStr "AGE"); ("message", PStr "Enter your age");
           ("title", PStr "Age"); ("options", PNone);
           ("active", PBool true); ("type", PStr "FORM");
           ("required", PRef 16)].

Definition age_required : gmap pyval pyval :=
  dict_of [("var", PStr "age"); ("window", PStr "NEXT");
           ("in_options", PBool false); ("type", PStr "numeric");
           ("length", PStr "11")].

Definition next_window : gmap pyval pyval :=
  dict_of [("name", PStr "NEXT"); ("message", PStr "Thank you");
           ("title", PStr "Done"); ("options", PRef 17);
           ("active", PBool true); ("type", PStr "MESSAGE")].

Definition broken_window : gmap pyval pyval :=
  dict_of [("name", PStr "BROKEN"); ("message", PStr "Enter a value");
           ("title", PStr "Broken"); ("options", PRef 17);
           ("active", PBool true); ("type", PStr "FORM");
           ("required", PRef 18)].

Definition broken_required : gmap pyval pyval :=
  dict_of [("var", PStr "x"); ("in_options", PBool false)].

Definition request_of (text : string) : gmap pyval pyval :=
  dict_of [("session_nr", PStr "s1"); ("cell_nr", PStr "84");
           ("request_str", PStr text)].

Definition session_of (at_window variables : pyval) : gmap pyval pyval :=
  dict_of [("session_nr", PStr "s1"); ("variables", variables);
           ("cell_nr", PStr "84"); ("window", at_window)].

(** The heap before a request: the static registry (1), its windows
    (2-6) with their options and required specs (10-19), the session store
    (20) holding one session (21) that is at window [at_window] with
    variables [variables], an empty dict (22) to serve as its variables,
    the cache store (25), and four requests of that session (30-33). *)
Definition world (at_window variables : pyval) : heap :=
  list_to_map [
    (1, PDict (dict_of [("HOME", PRef 2); ("W", PRef 3); ("AGE", PRef 4);
                        ("NEXT", PRef 5); ("BROKEN", PRef 6)]));
    (2, PDict home_window);
    (3, PDict city_window);
    (4, PDict age_window);
    (5, PDict next_window);
    (6, PDict broken_window);
    (10, PList home_options);
    (11, PDict option_city);
    (12, PDict option_age);
    (13, PList city_options);
    (14, PDict option_maputo);
    (15, PDict city_required);
    (16, PDict age_required);
    (17, PList []);
    (18, PDict broken_required);
    (19, PDict option_help);
    (20, PDict {[ PStr "s1" := PRef 21 ]});
    (21, PDict (session_of at_window variables));
    (22, PDict ∅);
    (25, PDict ∅);
    (30, PDict (request_of "9"));
    (31, PDict (request_of "1"));
    (32, PDict (request_of "34"));
    (33, PDict (request_of "3"))
  ].

(** The application over that registry and session store, without a
    cache. *)
Definition app (initial : string) : Lottus :=
  init (PStr initial) (PRef 1) (DictSessionManager (PRef 20)) None.

(** The same heap with an empty session store: no session exists yet (the
    dict at 21 is referenced by nothing). *)
Definition fresh_world : heap :=
  <[20 := PDict ∅]> (world PNone PNone).

(** A processor that answers with the window [window] and with a session
    object of its own making, located at [at_window]. *)
Definition replacing_processor (window at_window : pyval) : processor :=
  λ session request,
    let! variables := py_alloc (PDict ∅) in
    let! replacement :=
      create_session (PStr "s1") (PStr "84") at_window variables in
    ret (window, replacement).

Definition home_processor : processor :=
  replacing_processor (PRef 2) (PStr "HOME").

(** HOME is computed by a processor. *)
Definition app_mapped : Lottus :=
  add_window_rule (app "HOME") (PStr "HOME") home_processor.

(** W, the target of the first option of HOME, is computed by a
    processor. *)
Definition app_mapped_target : Lottus :=
  add_window_rule (app "HOME") (PStr "W")
    (replacing_processor (PRef 3) (PStr "W")).



End Scenario.

(** ** The shapes of the records the engine reads *)

Module Shape.
Import Py Lottus.

Definition is_dict (h : heap) (v : pyval) (d : gmap pyval pyval) : Prop :=
  ∃ l, v = PRef l ∧ h !! l = Some (PDict d).

Definition is_list (h : heap) (v : pyval) (xs : list pyval) : Prop :=
  ∃ l, v = PRef l ∧ h !! l = Some (PList xs).

(** A window as [process_window] reads it: a dict carrying [options],
    [type] and [active] (the three fields it subscripts before looking at
    anything else). *)
Definition is_window (h : heap) (w : pyval) (dw : gmap pyval pyval) : Prop :=
  is_dict h w dw ∧
  is_Some (dw !! PStr "options") ∧
  is_Some (dw !! PStr "type") ∧
  is_Some (dw !! PStr "active").

(** A request: a dict with its three mandatory fields. *)
Definition is_request (h : heap) (request session_nr request_str cell_nr : pyval)
  : Prop :=
  ∃ dq, is_dict h request dq ∧
        dq !! PStr "session_nr" = Some session_nr ∧
        dq !! PStr "request_str" = Some request_str ∧
        dq !! PStr "cell_nr" = Some cell_nr.

(** The window declares a required spec. *)
Definition declares_required (h : heap) (dw : gmap pyval pyval)
    (required : pyval) (dr : gmap pyval pyval) : Prop :=
  dw !! PStr "required" = Some required ∧ is_dict h required dr.

(** [required.in_options] is set: the key is there and its value is
    [True]. *)
Definition in_options_set (dr : gmap pyval pyval) : Prop :=
  dr !! PStr "in_options" = Some (PBool true).

(** [required.in_options] is false or absent. *)
Definition in_options_unset (dr : gmap pyval pyval) : Prop :=
  ∀ flag, dr !! PStr "in_options" = Some flag → flag ≠ PBool true.

(** The session's [variables] is the dict at [lv]. *)
Definition session_variables (h : heap) (session : pyval) (lv : loc)
    (dv : gmap pyval pyval) : Prop :=
  ∃ ds, is_dict h session ds ∧
        ds !! PStr "variables" = Some (PRef lv) ∧
        h !! lv = Some (PDict dv).

(** The session manager hands out [session] for the request: a stored
    session exists.  [h] is the heap at the call of [process_request], [h0]
    the heap the lookup leaves. *)
Definition stored_session (self : Lottus) (request session : pyval)
    (h h0 : heap) : Prop :=
  ∃ sn rs cn,
    is_request h request sn rs cn ∧
    sm_get (session_manager self) sn cn h = (Ok session, h0) ∧
    session ≠ PNone.

(** The [option] field of an entry of an option list. *)
Definition option_is (h : heap) (s o : pyval) : Prop :=
  getitem h s (PStr "option") = Ok o.

(** No entry of the list has [r] as its [option] field. *)
Definition no_option (h : heap) (r : string) (xs : list pyval) : Prop :=
  Forall (λ s, ∃ o, option_is h s o ∧ o ≠ PStr r) xs.

(** [s] is the first entry of [xs] whose [option] field is [r]. *)
Definition first_option (h : heap) (r : string) (xs : list pyval) (s : pyval)
  : Prop :=
  ∃ before after : list pyval,
    xs = (before ++ s :: after)%list ∧
    no_option h r before ∧ option_is h s (PStr r).

(** The window's option list. *)
Definition window_options (h : heap) (dw : gmap pyval pyval)
    (xs : list pyval) : Prop :=
  ∃ options, dw !! PStr "options" = Some options ∧ is_list h options xs.

(** An entry of an option list as [option_response] reads it: a dict
    with an [option] and a [display] field. *)
Definition is_option (h : heap) (x : pyval) (od : pyval * pyval) : Prop :=
  ∃ dx, is_dict h x dx ∧
        dx !! PStr "option" = Some od.1 ∧
        dx !! PStr "display" = Some od.2.

(** The options of a window that can be projected: the key is missing, or
    it holds a list of options.  [ods] are their option and display
    fields, in order. *)
Definition projectable_options (h : heap) (dw : gmap pyval pyval)
    (ods : list (pyval * pyval)) : Prop :=
  (dw !! PStr "options" = None ∧ ods = []) ∨
  (∃ xs, window_options h dw xs ∧ Forall2 (is_option h) xs ods).

(** A response: a dict with exactly a message, a title and a list of
    option/value pairs. *)
Definition is_response (h : heap) (r message title : pyval)
    (ods : list (pyval * pyval)) : Prop :=
  ∃ options items,
    is_dict h r (response_fields message title options) ∧
    is_list h options items ∧
    Forall2 (λ item od, is_dict h item (option_fields od.1 od.2)) items ods.

(** The window and the session lines 53-61 end with on a new session:
    [created] is the session [create_session] built; with a processor
    under the initial window's name the pair is the one the processor
    returned for [created] (and the window was handed to the cache, when
    there is one), otherwise the window is [get_window] of the name and the
    session is [created]. *)
Definition new_session_turn (self : Lottus) (request sn cn : pyval)
    (h0 : heap) (w session : pyval) (h1 : heap) : Prop :=
  ∃ created hc,
    create_session sn cn (initial_window self) PNone h0 = (Ok created, hc) ∧
    ((∃ (p : processor) hp,
        mapped_windows self !! initial_window self = Some p ∧
        p created request hc = (Ok (w, session), hp) ∧
        match window_cache self with
        | Some cache => ∃ r, wc_cache cache w sn hp = (Ok r, h1)
        | None => h1 = hp
        end) ∨
     (mapped_windows self !! initial_window self = None ∧
      session = created ∧
      get_window self (initial_window self) hc = (Ok w, h1))).

(** The window and the session line 63 ends with on a stored session
    [session0]: the pair [process_window] returned for it, whose session is
    [session0] itself unless the pair came from a registered processor
    called with [session0]. *)
Definition stored_session_turn (self : Lottus) (request session0 : pyval)
    (h0 : heap) (w session : pyval) (h1 : heap) : Prop :=
  process_window self session0 request h0 = (Ok (w, session), h1) ∧
  (session = session0 ∨
   ∃ target (p : processor) ha hb,
     mapped_windows self !! target = Some p ∧
     p session0 request ha = (Ok (w, session), hb)).

(** What the in-options branch stores for the selected option: its
    [value] field when it has one, else its [option] field. *)
Definition captured_value (ds : gmap pyval pyval) : option pyval :=
  match ds !! PStr "value" with
  | Some v => Some v
  | None => ds !! PStr "option"
  end.

End Shape.

(** ** Windows and requests at the edges of the data model *)

Module Corner.
Import Py Lottus.
Local Open Scope py_scope.
Local Open Scope positive_scope.

(** NOTICE is what [create_window] builds when no options are given. *)
Definition notice_window : gmap pyval pyval :=
  window_fields (PStr "NOTICE") (PStr "Notice") (PStr "Good bye") PNone
    (PBool true) (PStr "MESSAGE").

(** BARE has no [type] and no [active] field. *)
Definition bare_window : gmap pyval pyval :=
  dict_of [("name", PStr "BARE"); ("message", PStr "Bare");
           ("title", PStr "Bare"); ("options", PRef 17)].

(** PLAIN carries the key [required] with the value [None]. *)
Definition plain_window : gmap pyval pyval :=
  dict_of [("name", PStr "PLAIN"); ("message", PStr "Pick");
           ("title", PStr "Plain"); ("options", PRef 13);
           ("active", PBool true); ("type", PStr "FORM");
           ("required", PNone)].

(** The first option of ODD has no [option] field. *)
Definition odd_window : gmap pyval pyval :=
  dict_of [("name", PStr "ODD"); ("message", PStr "Pick");
           ("title", PStr "Odd"); ("options", PRef 40);
           ("active", PBool true); ("type", PStr "FORM")].

Definition odd_options : list pyval := [PRef 41; PRef 11].

Definition unlabelled_option : gmap pyval pyval :=
  dict_of [("display", PStr "Untitled"); ("window", PStr "NEXT")].

Definition registry : gmap pyval pyval :=
  dict_of [("HOME", PRef 2); ("W", PRef 3); ("AGE", PRef 4);
           ("NEXT", PRef 5); ("BROKEN", PRef 6); ("NOTICE", PRef 7);
           ("BARE", PRef 8); ("PLAIN", PRef 9); ("ODD", PRef 42)].

(** A request without [request_str] and [cell_nr]. *)
Definition partial_request : gmap pyval pyval :=
  dict_of [("session_nr", PStr "s1")].

(** The heap of [Scenario.world] with these windows registered (7-9, 40-42)
    and the partial request (35). *)
Definition world (at_window : pyval) : heap :=
  <[1 := PDict registry]>
    (<[7 := PDict notice_window]>
       (<[8 := PDict bare_window]>
          (<[9 := PDict plain_window]>
             (<[40 := PList odd_options]>
                (<[41 := PDict unlabelled_option]>
                   (<[42 := PDict odd_window]>
                      (<[35 := PDict partial_request]>
                         (Scenario.world at_window (PRef 22))))))))).

(** A processor that has no window to offer. *)
Definition silent_processor : processor :=
  λ session request, ret (PNone, session).

Definition app_silent : Lottus :=
  add_window_rule (Scenario.app "HOME") (PStr "HOME") silent_processor.

End Corner.

(** ** Reasoning about computations *)

Module PyFacts.
Import Py.
Local Open Scope py_scope.

Section monad.
Context {A B : Type}.

Lemma bind_ok (m : M A) (k : A → M B) h a h1 :
  m h = (Ok a, h1) → bind m k h = k a h1.
Proof. intros E. unfold bind. by rewrite E. Qed.

Lemma bind_raise (m : M A) (k : A → M B) h e h1 :
  m h = (Raise e, h1) → bind m k h = (Raise e, h1).
Proof. intros E. unfold bind. by rewrite E. Qed.

Lemma bind_ok_inv (m : M A) (k : A → M B) h b h2 :
  bind m k h = (Ok b, h2) →
  ∃ a h1, m h = (Ok a, h1) ∧ k a h1 = (Ok b, h2).
Proof.
  unfold bind. destruct (m h) as [[a|e] h1]; [eauto | discriminate].
Qed.

Lemma bind_lift_ok (f : heap → outcome A) (k : A → M B) h a :
  f h = Ok a → bind (lift f) k h = k a h.
Proof. intros E. unfold bind, lift. by rewrite E. Qed.

End monad.

Lemma bind_ret_r {A} (m : M A) h : bind m ret h = m h.
Proof. unfold bind, ret. by destruct (m h) as [[a|e] h1]. Qed.

Lemma bind_ext {A B} (m : M A) (k1 k2 : A → M B) h :
  (∀ a h1, k1 a h1 = k2 a h1) → bind m k1 h = bind m k2 h.
Proof. intros E. unfold bind. destruct (m h) as [[a|e] h1]; by rewrite ?E. Qed.

Lemma bind_assoc {A B C} (m : M A) (f : A → M B) (g : B → M C) h :
  bind (bind m f) g h = bind m (λ a, bind (f a) g) h.
Proof. unfold bind. by destruct (m h) as [[a|e] h1]. Qed.

Lemma bind_cong_l {A B} (m m' : M A) (k : A → M B) h h' :
  m h = m' h' → bind m k h = bind m' k h'.
Proof. intros E. unfold bind. by rewrite E. Qed.

Lemma bind_ret_l {A B} (a : A) (k : A → M B) h : bind (ret a) k h = k a h.
Proof. done. Qed.

Lemma bind_getitem {B} v k (K : pyval → M B) h x :
  getitem h v k = Ok x → bind (py_getitem v k) K h = K x h.
Proof. intros E. unfold py_getitem. by apply bind_lift_ok. Qed.

Lemma bind_contains {B} k v (K : bool → M B) h b :
  contains h k v = Ok b → bind (py_contains k v) K h = K b h.
Proof. intros E. unfold py_contains. by apply bind_lift_ok. Qed.

Lemma bind_eq {B} a b (K : bool → M B) h r :
  eq_val h a b = Ok r → bind (py_eq a b) K h = K r h.
Proof. intros E. unfold py_eq. by apply bind_lift_ok. Qed.

Lemma bind_iter {B} v (K : list pyval → M B) h xs :
  iter_items h v = Ok xs → bind (py_iter v) K h = K xs h.
Proof. intros E. unfold py_iter. by apply bind_lift_ok. Qed.

Lemma bind_bool {B} v (K : bool → M B) h :
  bind (py_bool v) K h = K (py_truthy h v) h.
Proof. done. Qed.

(** Normalisation of a computation applied to a heap. *)
Ltac py_norm :=
  repeat first
    [ rewrite bind_assoc
    | rewrite bind_ret_l
    | rewrite bind_bool
    | rewrite decide_True by done
    | rewrite decide_False by done ].

(** Reading a field of a dict. *)
Lemma getitem_field h l d (k : string) :
  h !! l = Some (PDict d) →
  getitem h (PRef l) (PStr k) =
    match d !! PStr k with Some x => Ok x | None => Raise KeyError end.
Proof. intros E. unfold getitem. by rewrite E. Qed.

Lemma getitem_field_Some h l d (k : string) x :
  h !! l = Some (PDict d) → d !! PStr k = Some x →
  getitem h (PRef l) (PStr k) = Ok x.
Proof. intros E1 E2. by rewrite (getitem_field h l d k E1), E2. Qed.

(** A successful read of a string field can only come from a dict. *)
Lemma getitem_field_inv h v (k : string) x :
  getitem h v (PStr k) = Ok x →
  ∃ l d, v = PRef l ∧ h !! l = Some (PDict d) ∧ d !! PStr k = Some x.
Proof.
  destruct v as [| |s|l]; simpl; try discriminate.
  destruct (h !! l) as [[d|xs|]|] eqn:E; try discriminate.
  destruct (d !! PStr k) as [y|] eqn:E2; [|discriminate].
  intros [= ->]. eauto.
Qed.

Lemma contains_field h l d (k : string) :
  h !! l = Some (PDict d) →
  contains h (PStr k) (PRef l) = Ok (bool_decide (is_Some (d !! PStr k))).
Proof. intros E. unfold contains. by rewrite E. Qed.

Lemma setitem_field h l d (k : string) x :
  h !! l = Some (PDict d) →
  py_setitem (PRef l) (PStr k) x h =
    (Ok (), <[l := PDict (<[PStr k := x]> d)]> h).
Proof. intros E. unfold py_setitem. by rewrite E. Qed.

Lemma setitem_field_inv h v (k : string) x h1 :
  py_setitem v (PStr k) x h = (Ok (), h1) →
  ∃ l d, v = PRef l ∧ h !! l = Some (PDict d) ∧
         h1 = <[l := PDict (<[PStr k := x]> d)]> h.
Proof.
  destruct v as [| |s|l]; simpl; try discriminate.
  destruct (h !! l) as [[d|xs|]|] eqn:E; try discriminate.
  intros [= <-]. eauto.
Qed.

Lemma setitem_dict h l d k x :
  h !! l = Some (PDict d) → py_hashable h k = true →
  py_setitem (PRef l) k x h = (Ok (), <[l := PDict (<[k := x]> d)]> h).
Proof. intros E Hk. unfold py_setitem. by rewrite E, Hk. Qed.

(** Comparing with a scalar does not recurse. *)
Lemma eq_val_scalar_r h a b :
  (∀ l, b ≠ PRef l) → eq_val h a b = Ok (bool_decide (a = b)).
Proof.
  intros Hb. unfold eq_val. generalize recursion_limit. intros n.
  destruct n, a, b; try reflexivity; by destruct (Hb l0).
Qed.

End PyFacts.

Import Py Lottus Shape PyFacts.
Local Open Scope py_scope.

(** ** Resolution of the current window *)

Lemma resolve_refines self session request h :
  process_window_resolve self session request h =
  Spec.resolve_in_order self session request h.
Proof.
  unfold process_window_resolve, Spec.resolve_in_order.
  apply bind_ext. intros name h1.
  cbn [Spec.first_present].
  unfold Spec.cache_scoped, Spec.cache_unscoped, Spec.dynamic_resolver,
    Spec.static_registry.
  destruct (window_cache self) as [cache|]; unfold bind, ret;
    repeat (case_match; simplify_eq; try done).
Qed.




(** ** The end of a processed request *)

Lemma finish_ok_inv self window session h w h' :
  process_request_finish self window session h = (Ok w, h') →
  w = window ∧
  ∃ h1 name r,
    getitem h1 window (PStr "name") = Ok name ∧
    getitem h1 session (PStr "window") = Ok name ∧
    sm_save (session_manager self) session h1 = (Ok r, h').
Proof.
  unfold process_request_finish. intros E.
  apply bind_ok_inv in E as (name & h0 & Ename & E).
  apply bind_ok_inv in E as ([] & h1 & Eset & E).
  apply bind_ok_inv in E as (r & h2 & Esave & E).
  unfold py_getitem, lift in Ename. injection Ename as Ename <-.
  injection E as <- <-. split; [done|].
  exists h1, name, r.
  apply setitem_field_inv in Eset as (ls & ds & -> & Hs & ->).
  apply getitem_field_inv in Ename as (lw & dw & -> & Hw & Hname).
  split_and!; [|by erewrite getitem_field_Some;
                  [| apply lookup_insert_eq | apply lookup_insert_eq]|done].
  destruct (decide (ls = lw)) as [->|Hne].
  - simplify_eq. eapply getitem_field_Some; [apply lookup_insert_eq|].
    by rewrite lookup_insert_ne.
  - eapply getitem_field_Some; [|done]. by rewrite lookup_insert_ne.
Qed.

Lemma finish_steps self window session h w h' :
  process_request_finish self window session h = (Ok w, h') →
  w = window ∧
  ∃ name h2 r,
    getitem h window (PStr "name") = Ok name ∧
    py_setitem session (PStr "window") name h = (Ok (), h2) ∧
    getitem h2 window (PStr "name") = Ok name ∧
    getitem h2 session (PStr "window") = Ok name ∧
    sm_save (session_manager self) session h2 = (Ok r, h').
Proof.
  intros E. pose proof E as E'. apply finish_ok_inv in E' as (-> & _).
  split; [done|]. unfold process_request_finish in E.
  apply bind_ok_inv in E as (name & h0 & Ename & E).
  apply bind_ok_inv in E as ([] & h2 & Eset & E).
  apply bind_ok_inv in E as (r & h3 & Esave & E).
  unfold py_getitem, lift in Ename. injection Ename as Ename <-.
  injection E as <-. exists name, h2, r. split_and!; [done..| | |done].
  - pose proof Eset as Eset'.
    apply setitem_field_inv in Eset' as (ls & ds & -> & Hs & ->).
    apply getitem_field_inv in Ename as (lw & dw & -> & Hw & Hname).
    destruct (decide (ls = lw)) as [->|Hne].
    + simplify_eq. eapply getitem_field_Some; [apply lookup_insert_eq|].
      by rewrite lookup_insert_ne.
    + eapply getitem_field_Some; [|done]. by rewrite lookup_insert_ne.
  - apply setitem_field_inv in Eset as (ls & ds & -> & Hs & ->).
    eapply getitem_field_Some; apply lookup_insert_eq.
Qed.

Lemma in_mapped_windows_inv self k h b h1 :
  in_mapped_windows self k h = (Ok b, h1) →
  h1 = h ∧ b = bool_decide (is_Some (mapped_windows self !! k)).
Proof.
  unfold in_mapped_windows, lift. destruct (py_hashable h k); [|done].
  by intros [= <- <-].
Qed.

Lemma get_mapped_window_ok_inv self k session request h x h1 :
  get_mapped_window self k session request h = (Ok x, h1) →
  ∃ p : processor,
    mapped_windows self !! k = Some p ∧ p session request h = (Ok x, h1).
Proof.
  unfold get_mapped_window. intros E.
  apply bind_ok_inv in E as (b & h0 & Hb & E).
  apply in_mapped_windows_inv in Hb as [-> ->].
  destruct (mapped_windows self !! k) as [p|] eqn:Hp.
  - rewrite bool_decide_eq_true_2 in E by eauto. eauto.
  - by rewrite bool_decide_eq_false_2 in E by (by intros [? ?]).
Qed.

(** The session [process_window] returns is the one it was given, unless
    it comes from the processor of the selected option's target, which was
    called with the one it was given. *)
Lemma process_window_session self session0 request h0 w session h1 :
  process_window self session0 request h0 = (Ok (w, session), h1) →
  session = session0 ∨
  ∃ target (p : processor) ha hb,
    mapped_windows self !! target = Some p ∧
    p session0 request ha = (Ok (w, session), hb).
Proof.
  unfold process_window. intros E.
  apply bind_ok_inv in E as (aw & h & _ & E).
  unfold process_window_transition in E.
  apply bind_ok_inv in E as (options & ? & _ & E).
  apply bind_ok_inv in E as (window_type & ? & _ & E).
  apply bind_ok_inv in E as (active & ? & _ & E).
  apply bind_ok_inv in E as (has_required & ? & _ & E).
  apply bind_ok_inv in E as (required & ? & _ & E).
  apply bind_ok_inv in E as (session_nr & ? & _ & E).
  apply bind_ok_inv in E as (request_str & ? & _ & E).
  apply bind_ok_inv in E as (cell_nr & ? & _ & E).
  destruct (decide (required = PNone)) as [_|_].
  - unfold process_window_select in E.
    apply bind_ok_inv in E as (selected & ? & _ & E).
    destruct (decide (selected = PNone)) as [_|_].
    + apply bind_ok_inv in E as (? & ? & _ & E). left. by injection E.
    + apply bind_ok_inv in E as (target & ? & _ & E).
      apply bind_ok_inv in E as ([] & ? & _ & E).
      * apply bind_ok_inv in E as (target' & ? & _ & E).
        apply bind_ok_inv in E as ([w' s'] & ? & Hp & E).
        apply get_mapped_window_ok_inv in Hp as (p & Hp & Hrun).
        assert (w' = w ∧ s' = session) as [-> ->].
        { destruct (window_cache self).
          - apply bind_ok_inv in E as (? & ? & _ & E). by injection E.
          - by injection E. }
        right. eauto 10.
      * apply bind_ok_inv in E as (target' & ? & _ & E).
        apply bind_ok_inv in E as (w' & ? & _ & E). left. by injection E.
  - unfold process_window_required in E.
    apply bind_ok_inv in E as ([] & ? & _ & E).
    + apply bind_ok_inv in E as (? & ? & _ & E).
      apply bind_ok_inv in E as (? & ? & _ & E).
      apply bind_ok_inv in E as (? & ? & _ & E).
      apply bind_ok_inv in E as (? & ? & _ & E).
      apply bind_ok_inv in E as (? & ? & _ & E). left. by injection E.
    + apply bind_ok_inv in E as (? & ? & _ & E). left. by injection E.
Qed.

(** C4: whenever [process_request] returns normally with a window, the
    session of the turn - on a new session the one [create_session] built
    or the one the initial window's processor returned for it, on a stored
    session the one [process_window] returned, which is the stored session
    unless a processor replaced it - has had its window field set to the
    name field of that window, and the heap returned is the one the session
    manager's [save] produced for that very session from the heap in which
    the two fields are equal. *)
Theorem process_request_session_at_returned_window self request h w h' :
  process_request self request h = (Ok w, h') →
  ∃ sn rs cn session0 h0 session h1 name h2 r,
    is_request h request sn rs cn ∧
    sm_get (session_manager self) sn cn h = (Ok session0, h0) ∧
    (session0 = PNone ∧ new_session_turn self request sn cn h0 w session h1 ∨
     session0 ≠ PNone ∧
       stored_session_turn self request session0 h0 w session h1) ∧
    getitem h1 w (PStr "name") = Ok name ∧
    py_setitem session (PStr "window") name h1 = (Ok (), h2) ∧
    getitem h2 w (PStr "name") = Ok name ∧
    getitem h2 session (PStr "window") = Ok name ∧
    sm_save (session_manager self) session h2 = (Ok r, h').
Proof.
  unfold process_request. intros E.
  apply bind_ok_inv in E as (sn & ? & Hsn & E).
  apply bind_ok_inv in E as (rs & ? & Hrs & E).
  apply bind_ok_inv in E as (cn & ? & Hcn & E).
  unfold py_getitem, lift in Hsn, Hrs, Hcn.
  injection Hsn as Hsn <-. injection Hrs as Hrs <-. injection Hcn as Hcn <-.
  apply bind_ok_inv in E as (session0 & h0 & Hget & E).
  apply bind_ok_inv in E as ([window session] & h1 & Hturn & E).
  apply finish_steps in E as (-> & name & h2 & r & ? & ? & ? & ? & ?).
  exists sn, rs, cn, session0, h0, session, h1, name, h2, r.
  split_and!; try done.
  - apply getitem_field_inv in Hsn as (lq & dq & -> & Hq & Hsn).
    apply getitem_field_inv in Hrs as (? & ? & [= <-] & ? & Hrs).
    apply getitem_field_inv in Hcn as (? & ? & [= <-] & ? & Hcn).
    simplify_eq. exists dq. split; [by eexists|done].
  - destruct (decide (session0 = PNone)) as [->|Hne].
    + left. split; [done|].
      apply bind_ok_inv in Hturn as (created & hc & Hnew & Hturn).
      exists created, hc. split; [done|].
      apply bind_ok_inv in Hturn as (b & ? & Hb & Hturn).
      apply in_mapped_windows_inv in Hb as [-> ->].
      destruct (mapped_windows self !! initial_window self) as [p|] eqn:Hp.
      * rewrite bool_decide_eq_true_2 in Hturn by eauto. left.
        apply bind_ok_inv in Hturn as ([w' s'] & hp & Hrun & Hturn).
        apply get_mapped_window_ok_inv in Hrun as (p' & Hp' & Hrun).
        rewrite Hp in Hp'. injection Hp' as <-.
        exists p, hp. destruct (window_cache self) as [cache|].
        -- apply bind_ok_inv in Hturn as (r' & ? & Hcache & Hturn).
           injection Hturn as <- <- <-. eauto.
        -- injection Hturn as <- <- <-. eauto.
      * rewrite bool_decide_eq_false_2 in Hturn by (by intros [? ?]). right.
        apply bind_ok_inv in Hturn as (w' & ? & Hwin & Hturn).
        by injection Hturn as <- <- <-.
    + right. split; [done|]. split; [done|].
      eauto using process_window_session.
Qed.

Lemma process_request_session_at_returned_window_witness :
  (∃ sn rs cn session0 h0 session h1 name h2 r,
     is_request (Scenario.world (PStr "HOME") (PRef 22)) (PRef 31) sn rs cn ∧
     sm_get (session_manager (Scenario.app "HOME")) sn cn
       (Scenario.world (PStr "HOME") (PRef 22)) = (Ok session0, h0) ∧
     (session0 = PNone ∧
        new_session_turn (Scenario.app "HOME") (PRef 31) sn cn h0
          (PRef 3) session h1 ∨
      session0 ≠ PNone ∧
        stored_session_turn (Scenario.app "HOME") (PRef 31) session0 h0
          (PRef 3) session h1) ∧
     getitem h1 (PRef 3) (PStr "name") = Ok name ∧
     py_setitem session (PStr "window") name h1 = (Ok (), h2) ∧
     getitem h2 (PRef 3) (PStr "name") = Ok name ∧
     getitem h2 session (PStr "window") = Ok name ∧
     sm_save (session_manager (Scenario.app "HOME")) session h2 =
       (Ok r, snd (process_request (Scenario.app "HOME") (PRef 31)
                     (Scenario.world (PStr "HOME") (PRef 22))))) ∧
  (∃ sn rs cn session0 h0 session h1 name h2 r,
     is_request Scenario.fresh_world (PRef 31) sn rs cn ∧
     sm_get (session_manager (Scenario.app "HOME")) sn cn
       Scenario.fresh_world = (Ok session0, h0) ∧
     (session0 = PNone ∧
        new_session_turn (Scenario.app "HOME") (PRef 31) sn cn h0
          (PRef 2) session h1 ∨
      session0 ≠ PNone ∧
        stored_session_turn (Scenario.app "HOME") (PRef 31) session0 h0
          (PRef 2) session h1) ∧
     getitem h1 (PRef 2) (PStr "name") = Ok name ∧
     py_setitem session (PStr "window") name h1 = (Ok (), h2) ∧
     getitem h2 (PRef 2) (PStr "name") = Ok name ∧
     getitem h2 session (PStr "window") = Ok name ∧
     sm_save (session_manager (Scenario.app "HOME")) session h2 =
       (Ok r, snd (process_request (Scenario.app "HOME") (PRef 31)
                     Scenario.fresh_world))).
Proof.
  split.
  - apply (process_request_session_at_returned_window (Scenario.app "HOME")
             (PRef 31) (Scenario.world (PStr "HOME") (PRef 22))).
    compute_done.
  - apply (process_request_session_at_returned_window (Scenario.app "HOME")
             (PRef 31) Scenario.fresh_world).
    compute_done.
Defined.

(** ** The transition out of the resolved window *)

Lemma next_match_none h request sn r cn xs :
  is_request h request sn (PStr r) cn → no_option h r xs →
  next_match request xs h = (Ok PNone, h).
Proof.
  intros (dq & (lq & -> & Hq) & _ & Hr & _) Hxs.
  induction Hxs as [|s xs (o & Ho & Hne) _ IH]; [done|].
  cbn [next_match]. rewrite (bind_getitem _ _ _ _ _ Ho).
  rewrite (bind_getitem _ _ _ _ (PStr r)) by eauto using getitem_field_Some.
  rewrite (bind_eq _ _ _ _ (bool_decide (o = PStr r)))
    by (by apply eq_val_scalar_r).
  by rewrite bool_decide_eq_false_2.
Qed.

Lemma next_match_first h request sn r cn xs s :
  is_request h request sn (PStr r) cn → first_option h r xs s →
  next_match request xs h = (Ok s, h).
Proof.
  intros (dq & (lq & -> & Hq) & _ & Hr & _) (before & after & -> & Hb & Hs).
  induction Hb as [|x xs (o & Ho & Hne) _ IH]; simpl.
  - rewrite (bind_getitem _ _ _ _ _ Hs).
    rewrite (bind_getitem _ _ _ _ (PStr r)) by eauto using getitem_field_Some.
    rewrite (bind_eq _ _ _ _ true); [done|].
    rewrite eq_val_scalar_r by done. by rewrite bool_decide_eq_true_2.
  - rewrite (bind_getitem _ _ _ _ _ Ho).
    rewrite (bind_getitem _ _ _ _ (PStr r)) by eauto using getitem_field_Some.
    rewrite (bind_eq _ _ _ _ (bool_decide (o = PStr r)))
      by (by apply eq_val_scalar_r).
    by rewrite bool_decide_eq_false_2.
Qed.

Lemma get_selected_option_none self h w dw request sn r cn xs :
  is_dict h w dw → window_options h dw xs →
  is_request h request sn (PStr r) cn → no_option h r xs →
  get_selected_option self w request h = (Ok PNone, h).
Proof.
  intros (lw & -> & Hw) (options & Ho & lo & -> & Hlo) Hq Hxs.
  unfold get_selected_option.
  rewrite (bind_getitem _ _ _ _ (PRef lo)) by eauto using getitem_field_Some.
  rewrite (bind_iter _ _ _ xs) by (by unfold iter_items; rewrite Hlo).
  eauto using next_match_none.
Qed.

Lemma get_selected_option_first self h w dw request sn r cn xs s :
  is_dict h w dw → window_options h dw xs →
  is_request h request sn (PStr r) cn → first_option h r xs s →
  get_selected_option self w request h = (Ok s, h).
Proof.
  intros (lw & -> & Hw) (options & Ho & lo & -> & Hlo) Hq Hxs.
  unfold get_selected_option.
  rewrite (bind_getitem _ _ _ _ (PRef lo)) by eauto using getitem_field_Some.
  rewrite (bind_iter _ _ _ xs) by (by unfold iter_items; rewrite Hlo).
  eauto using next_match_first.
Qed.

Lemma transition_required self h w dw required dr session request sn rs cn :
  is_window h w dw → declares_required h dw required dr →
  is_request h request sn rs cn →
  process_window_transition self w session request h =
  process_window_required self w required session request rs h.
Proof.
  intros ((lw & -> & Hw) & [o Ho] & [t Ht] & [a Ha])
         (Hreq & lr & -> & Hr) (dq & (lq & -> & Hq) & Hsn & Hrs & Hcn).
  unfold process_window_transition.
  rewrite (bind_getitem _ _ _ _ o) by eauto using getitem_field_Some.
  rewrite (bind_getitem _ _ _ _ t) by eauto using getitem_field_Some.
  rewrite (bind_getitem _ _ _ _ a) by eauto using getitem_field_Some.
  rewrite (bind_contains _ _ _ _ true)
    by (by erewrite contains_field, bool_decide_eq_true_2).
  rewrite (bind_getitem _ _ _ _ (PRef lr)) by eauto using getitem_field_Some.
  rewrite (bind_getitem _ _ _ _ sn) by eauto using getitem_field_Some.
  rewrite (bind_getitem _ _ _ _ rs) by eauto using getitem_field_Some.
  rewrite (bind_getitem _ _ _ _ cn) by eauto using getitem_field_Some.
  by rewrite decide_False.
Qed.

Lemma transition_select self h w dw session request sn rs cn :
  is_window h w dw → dw !! PStr "required" = None →
  is_request h request sn rs cn →
  process_window_transition self w session request h =
  process_window_select self w session request sn h.
Proof.
  intros ((lw & -> & Hw) & [o Ho] & [t Ht] & [a Ha])
         Hreq (dq & (lq & -> & Hq) & Hsn & Hrs & Hcn).
  unfold process_window_transition.
  rewrite (bind_getitem _ _ _ _ o) by eauto using getitem_field_Some.
  rewrite (bind_getitem _ _ _ _ t) by eauto using getitem_field_Some.
  rewrite (bind_getitem _ _ _ _ a) by eauto using getitem_field_Some.
  rewrite (bind_contains _ _ _ _ false).
  2:{ erewrite contains_field by done. rewrite bool_decide_eq_false_2; [done|].
      rewrite Hreq. by intros [? ?]. }
  py_norm.
  rewrite (bind_getitem _ _ _ _ sn) by eauto using getitem_field_Some.
  rewrite (bind_getitem _ _ _ _ rs) by eauto using getitem_field_Some.
  rewrite (bind_getitem _ _ _ _ cn) by eauto using getitem_field_Some.
  by rewrite decide_True.
Qed.

(** The test [ 'in_options' in required and required['in_options'] == True ]. *)
Lemma in_options_test {B} h required dr (K : bool → M B) :
  is_dict h required dr →
  (let! has_in_options := py_contains (PStr "in_options") required in
   let! in_options :=
     if (has_in_options : bool) then
       let! flag := py_getitem required (PStr "in_options") in
       py_eq flag (PBool true)
     else ret false in
   K in_options) h =
  K (bool_decide (dr !! PStr "in_options" = Some (PBool true))) h.
Proof.
  intros (lr & -> & Hr).
  rewrite (bind_contains _ _ _ _ _ (contains_field _ _ _ _ Hr)).
  destruct (dr !! PStr "in_options") as [flag|] eqn:E.
  - rewrite bool_decide_eq_true_2 by eauto. py_norm.
    rewrite (bind_getitem _ _ _ _ flag) by eauto using getitem_field_Some.
    rewrite (bind_eq _ _ _ _ (bool_decide (flag = PBool true)))
      by (by apply eq_val_scalar_r).
    f_equal. apply bool_decide_ext. naive_solver.
  - rewrite bool_decide_eq_false_2 by (by intros [? ?]). py_norm.
    by rewrite bool_decide_eq_false_2.
Qed.

Lemma capture_ok h session required dr lv dv var value :
  session_variables h session lv dv → is_dict h required dr →
  dr !! PStr "var" = Some var → py_hashable h var = true →
  capture session required value h =
    (Ok (), <[lv := PDict (<[var := value]> dv)]> h).
Proof.
  intros (ds & (ls & -> & Hs) & Hvars & Hv) (lr & -> & Hr) Hvar Hhash.
  unfold capture.
  rewrite (bind_getitem _ _ _ _ (PRef lv)) by eauto using getitem_field_Some.
  rewrite (bind_getitem _ _ _ _ var) by eauto using getitem_field_Some.
  by apply setitem_dict.
Qed.

(** Free-text capture, lines 114-117. *)
Lemma required_free_text self h w required dr session request rs
    target var lv dv :
  is_dict h required dr →
  dr !! PStr "window" = Some target → in_options_unset dr →
  dr !! PStr "var" = Some var → py_hashable h var = true →
  session_variables h session lv dv → PRef lv ≠ required →
  process_window_required self w required session request rs h =
  (let! window := get_window self target in ret (window, session))
    (<[lv := PDict (<[var := rs]> dv)]> h).
Proof.
  intros Hreq Hwin Hunset Hvar Hhash Hvars Hne.
  unfold process_window_required.
  pose proof Hreq as (lr & -> & Hr).
  rewrite (bind_contains _ _ _ _ true)
    by (by erewrite contains_field, bool_decide_eq_true_2).
  rewrite (in_options_test _ _ _ _ Hreq).
  rewrite bool_decide_eq_false_2 by (intros E; by apply Hunset in E).
  py_norm.
  rewrite (bind_ok _ _ _ _ _ (capture_ok _ _ _ _ _ _ _ _ Hvars Hreq Hvar Hhash)).
  py_norm.
  rewrite (bind_getitem _ _ _ _ target); [done|].
  eapply getitem_field_Some; [|done].
  rewrite lookup_insert_ne; [done|congruence].
Qed.

(** In-options capture with a matching option, lines 104-110 and 117. *)
Lemma required_in_options_hit self h w dw required dr session request
    sn r cn xs s ds target var value lv dv :
  is_dict h w dw → window_options h dw xs →
  is_request h request sn (PStr r) cn →
  is_dict h required dr →
  dr !! PStr "window" = Some target → in_options_set dr →
  first_option h r xs s → is_dict h s ds → captured_value ds = Some value →
  dr !! PStr "var" = Some var → py_hashable h var = true →
  session_variables h session lv dv → PRef lv ≠ required →
  process_window_required self w required session request (PStr r) h =
  (let! window := get_window self target in ret (window, session))
    (<[lv := PDict (<[var := value]> dv)]> h).
Proof.
  intros Hw Hxs Hq Hreq Hwin Hset Hfirst Hs Hval Hvar Hhash Hvars Hne.
  unfold process_window_required.
  pose proof Hreq as (lr & -> & Hr). pose proof Hs as (ls & -> & Hls).
  rewrite (bind_contains _ _ _ _ true)
    by (by erewrite contains_field, bool_decide_eq_true_2).
  rewrite (in_options_test _ _ _ _ Hreq), bool_decide_eq_true_2 by done.
  py_norm.
  rewrite (bind_ok _ _ _ _ _
             (get_selected_option_first _ _ _ _ _ _ _ _ _ _ Hw Hxs Hq Hfirst)).
  assert (ds !! PStr "option" = Some (PStr r)) as Hopt.
  { destruct Hfirst as (? & ? & _ & _ & Ho). unfold option_is in Ho.
    rewrite (getitem_field _ _ _ _ Hls) in Ho. by destruct (ds !! _); simplify_eq. }
  py_norm. cbn [py_truthy]. rewrite Hls.
  rewrite bool_decide_eq_false_2
    by (intros ->; by rewrite lookup_empty in Hopt).
  cbn [negb]. py_norm.
  rewrite (bind_contains _ _ _ _ _ (contains_field _ _ _ _ Hls)).
  unfold captured_value in Hval.
  destruct (ds !! PStr "value") as [v|] eqn:Ev; simplify_eq.
  - rewrite bool_decide_eq_true_2 by eauto. py_norm.
    rewrite (bind_getitem _ _ _ _ value) by eauto using getitem_field_Some.
    rewrite (bind_ok _ _ _ _ _
               (capture_ok _ _ _ _ _ _ _ _ Hvars Hreq Hvar Hhash)).
    py_norm. rewrite (bind_getitem _ _ _ _ target); [done|].
    eapply getitem_field_Some; [|done].
    rewrite lookup_insert_ne; [done|congruence].
  - rewrite bool_decide_eq_false_2 by (by intros [? ?]). py_norm.
    rewrite (bind_getitem _ _ _ _ (PStr r)) by eauto using getitem_field_Some.
    rewrite (bind_ok _ _ _ _ _
               (capture_ok _ _ _ _ _ _ _ _ Hvars Hreq Hvar Hhash)).
    py_norm. rewrite (bind_getitem _ _ _ _ target); [done|].
    eapply getitem_field_Some; [|done].
    rewrite lookup_insert_ne; [done|congruence].
Qed.

(** In-options capture without a matching option, lines 111-113 and 117:
    the message of the current window is overwritten, and the window
    returned is nevertheless the one [required.window] names. *)
Lemma required_in_options_miss self h lw dw required dr session request
    sn r cn xs target :
  h !! lw = Some (PDict dw) → window_options h dw xs →
  is_request h request sn (PStr r) cn →
  is_dict h required dr →
  dr !! PStr "window" = Some target → in_options_set dr →
  no_option h r xs →
  process_window_required self (PRef lw) required session request (PStr r) h =
  (let! window := get_window self target in ret (window, session))
    (<[lw := PDict (<[PStr "message" := invalid_option_message]> dw)]> h).
Proof.
  intros Hw Hxs Hq Hreq Hwin Hset Hnone.
  unfold process_window_required.
  pose proof Hreq as (lr & -> & Hr).
  rewrite (bind_contains _ _ _ _ true)
    by (by erewrite contains_field, bool_decide_eq_true_2).
  rewrite (in_options_test _ _ _ _ Hreq), bool_decide_eq_true_2 by done.
  py_norm.
  erewrite (bind_ok (get_selected_option _ _ _))
    by (eapply get_selected_option_none; unfold is_dict; eauto).
  py_norm. cbn [py_truthy]. py_norm.
  rewrite (bind_ok _ _ _ _ _ (setitem_field _ _ _ _ _ Hw)). py_norm.
  rewrite (bind_getitem _ _ _ _ target); [done|].
  destruct (decide (lr = lw)) as [->|].
  - simplify_eq. eapply getitem_field_Some; [apply lookup_insert_eq|].
    by rewrite lookup_insert_ne.
  - eapply getitem_field_Some; [|done]. by rewrite lookup_insert_ne.
Qed.

(** A required spec without a [window] target, line 119: the error window
    is built and dropped, and no window is returned. *)
Lemma required_without_target self h w required dr session request rs :
  is_dict h required dr → dr !! PStr "window" = None →
  process_window_required self w required session request rs h =
  (let! discarded :=
     create_error_window (PStr "Error processing your request") in
   ret (PNone, session)) h.
Proof.
  intros (lr & -> & Hr) Hwin. unfold process_window_required.
  rewrite (bind_contains _ _ _ _ false); [done|].
  erewrite contains_field by done. rewrite bool_decide_eq_false_2; [done|].
  rewrite Hwin. by intros [? ?].
Qed.

(** ** Requests of a stored session *)

Lemma process_request_stored self request session h h0 :
  stored_session self request session h h0 →
  process_request self request h =
  (let! (window, session) := process_window self session request in
   process_request_finish self window session) h0.
Proof.
  intros (sn & rs & cn & (dq & (lq & -> & Hq) & Hsn & Hrs & Hcn) & Hget & Hne).
  unfold process_request.
  rewrite (bind_getitem _ _ _ _ sn) by eauto using getitem_field_Some.
  rewrite (bind_getitem _ _ _ _ rs) by eauto using getitem_field_Some.
  rewrite (bind_getitem _ _ _ _ cn) by eauto using getitem_field_Some.
  rewrite (bind_ok _ _ _ _ _ Hget). by rewrite decide_False.
Qed.

(** X9: free-text capture on a session that has a dict of variables: when
    the window the stored session is at declares [required] with a [window]
    target and with [in_options] false or absent, then for every request
    text whatsoever the text is stored under [required.var] in that dict
    (replacing what was stored under it, the other variables kept) and the
    window returned is [get_window(required.window)]. *)
Lemma free_text_capture self session request h0 h w dw required dr
    sn rs cn target var lv dv :
  process_window_resolve self session request h0 = (Ok w, h) →
  is_window h w dw → declares_required h dw required dr →
  dr !! PStr "window" = Some target → in_options_unset dr →
  dr !! PStr "var" = Some var → py_hashable h var = true →
  is_request h request sn rs cn →
  session_variables h session lv dv → PRef lv ≠ required →
  process_window self session request h0 =
  (let! window := get_window self target in ret (window, session))
    (<[lv := PDict (<[var := rs]> dv)]> h).
Proof.
  intros Hres Hw Hreq Htarget Hunset Hvar Hhash Hq Hvars Hne.
  unfold process_window. rewrite (bind_ok _ _ _ _ _ Hres).
  rewrite (transition_required _ _ _ _ _ _ _ _ _ _ _ Hw Hreq Hq).
  destruct Hreq as [_ Hreq]. eauto using required_free_text.
Qed.

Example free_text_capture_with_variables :
  process_window (Scenario.app "HOME") (PRef 21) (PRef 32)
    (Scenario.world (PStr "AGE") (PRef 22)) =
  (Ok (PRef 5, PRef 21),
   <[22%positive := PDict {[ PStr "age" := PStr "34" ]}]>
     (Scenario.world (PStr "AGE") (PRef 22))).
Proof.
  rewrite (free_text_capture (Scenario.app "HOME") (PRef 21) (PRef 32)
             (Scenario.world (PStr "AGE") (PRef 22))
             (Scenario.world (PStr "AGE") (PRef 22))
             (PRef 4) Scenario.age_window (PRef 16) Scenario.age_required
             (PStr "s1") (PStr "34") (PStr "84") (PStr "NEXT") (PStr "age")
             22%positive ∅).
  - compute_done.
  - compute_done.
  - split; [by eexists|]. compute_done.
  - split; [compute_done|by eexists].
  - compute_done.
  - intros flag [= <-]. discriminate.
  - compute_done.
  - reflexivity.
  - exists (Scenario.request_of "34"). split; [by eexists|]. compute_done.
  - exists (Scenario.session_of (PStr "AGE") (PRef 22)).
    split; [by eexists|]. compute_done.
  - discriminate.
Defined.

(** C7 (the code departs from it): the capture of line 115 is not
    unconditional.  When the variables of the stored session are [None],
    which is what [create_session] leaves in the session that
    [process_request] creates and saves on the first turn, a window with a
    free-text [required] makes [process_window], and so [process_request],
    raise [TypeError] instead of storing the text. *)
Theorem free_text_capture_raises_without_variables self request session
    h00 h0 h w dw required dr sn rs cn target var ds :
  stored_session self request session h00 h0 →
  process_window_resolve self session request h0 = (Ok w, h) →
  is_window h w dw → declares_required h dw required dr →
  dr !! PStr "window" = Some target → in_options_unset dr →
  dr !! PStr "var" = Some var →
  is_request h request sn rs cn →
  is_dict h session ds → ds !! PStr "variables" = Some PNone →
  process_window self session request h0 = (Raise TypeError, h) ∧
  process_request self request h00 = (Raise TypeError, h).
Proof.
  intros Hstored Hres Hw Hreq Htarget Hunset Hvar Hq Hs Hvars.
  assert (process_window self session request h0 = (Raise TypeError, h))
    as Hpw.
  { unfold process_window. rewrite (bind_ok _ _ _ _ _ Hres).
    rewrite (transition_required _ _ _ _ _ _ _ _ _ _ _ Hw Hreq Hq).
    destruct Hreq as [_ Hreq]. pose proof Hreq as (lr & -> & Hr).
    destruct Hs as (ls & -> & Hs).
    unfold process_window_required.
    rewrite (bind_contains _ _ _ _ true)
      by (by erewrite contains_field, bool_decide_eq_true_2).
    rewrite (in_options_test _ _ _ _ Hreq).
    rewrite bool_decide_eq_false_2 by (intros E; by apply Hunset in E).
    py_norm. unfold capture. py_norm.
    rewrite (bind_getitem _ _ _ _ PNone) by eauto using getitem_field_Some.
    py_norm.
    by rewrite (bind_getitem _ _ _ _ var) by eauto using getitem_field_Some. }
  split; [done|].
  rewrite (process_request_stored _ _ _ _ _ Hstored).
  by rewrite (bind_raise _ _ _ _ _ Hpw).
Qed.

(** AGE is the initial window; the first request creates session 34 and
    stores it; the second request carries the text 34. *)
Lemma free_text_capture_raises_without_variables_witness :
  fst (process_request (Scenario.app "AGE") (PRef 30) Scenario.fresh_world)
    = Ok (PRef 4) ∧
  getitem
    (snd (process_request (Scenario.app "AGE") (PRef 30) Scenario.fresh_world))
    (PRef 20) (PStr "s1") = Ok (PRef 34) ∧
  getitem
    (snd (process_request (Scenario.app "AGE") (PRef 30) Scenario.fresh_world))
    (PRef 34) (PStr "variables") = Ok PNone ∧
  fst (process_request (Scenario.app "AGE") (PRef 32)
         (snd (process_request (Scenario.app "AGE") (PRef 30)
                 Scenario.fresh_world)))
    = Raise TypeError.
Proof.
  split_and!; [compute_done..|].
  rewrite (proj2 (free_text_capture_raises_without_variables
             (Scenario.app "AGE") (PRef 32) (PRef 34)
             (snd (process_request (Scenario.app "AGE") (PRef 30)
                     Scenario.fresh_world))
             (snd (process_request (Scenario.app "AGE") (PRef 30)
                     Scenario.fresh_world))
             (snd (process_request (Scenario.app "AGE") (PRef 30)
                     Scenario.fresh_world))
             (PRef 4) Scenario.age_window (PRef 16) Scenario.age_required
             (PStr "s1") (PStr "34") (PStr "84") (PStr "NEXT") (PStr "age")
             (Scenario.session_of (PStr "AGE") PNone)
             ltac:(exists (PStr "s1"), (PStr "34"), (PStr "84");
                   split; [|split; [compute_done|discriminate]];
                   exists (Scenario.request_of "34");
                   split; [exists 32%positive; split; [done|compute_done]
                          |compute_done])
             ltac:(compute_done)
             ltac:(split; [exists 4%positive; split; [done|compute_done]
                          |compute_done])
             ltac:(split; [compute_done
                          |exists 16%positive; split; [done|compute_done]])
             ltac:(compute_done)
             ltac:(intros flag [= <-]; discriminate)
             ltac:(compute_done)
             ltac:(exists (Scenario.request_of "34");
                   split; [exists 32%positive; split; [done|compute_done]
                          |compute_done])
             ltac:(exists 34%positive; split; [done|compute_done])
             ltac:(compute_done))).
  reflexivity.
Defined.

(** C2 (amended): when the window the stored session is at declares
    [required] with [in_options] true and a [window] target, the
    session's [variables] is a dict, and some option's [option] field
    equals the request text, then the first such option is selected, its
    [value] field when it carries one (else its [option] field) is stored
    under [required.var], and the window returned is
    [get_window(required.window)]. *)
Theorem in_options_capture self session request h0 h w dw required dr
    sn r cn xs s ds target var value lv dv :
  process_window_resolve self session request h0 = (Ok w, h) →
  is_window h w dw → declares_required h dw required dr →
  dr !! PStr "window" = Some target → in_options_set dr →
  dr !! PStr "var" = Some var → py_hashable h var = true →
  is_request h request sn (PStr r) cn →
  window_options h dw xs → first_option h r xs s →
  is_dict h s ds → captured_value ds = Some value →
  session_variables h session lv dv → PRef lv ≠ required →
  get_selected_option self w request h = (Ok s, h) ∧
  process_window self session request h0 =
  (let! window := get_window self target in ret (window, session))
    (<[lv := PDict (<[var := value]> dv)]> h).
Proof.
  intros Hres Hw Hreq Htarget Hset Hvar Hhash Hq Hxs Hfirst Hs Hval Hvars Hne.
  split; [destruct Hw; eauto using get_selected_option_first|].
  unfold process_window. rewrite (bind_ok _ _ _ _ _ Hres).
  rewrite (transition_required _ _ _ _ _ _ _ _ _ _ _ Hw Hreq Hq).
  destruct Hreq as [_ Hreq], Hw as [Hw _].
  eauto using required_in_options_hit.
Qed.

Lemma in_options_capture_witness :
  process_window (Scenario.app "HOME") (PRef 21) (PRef 31)
    (Scenario.world (PStr "W") (PRef 22)) =
  (Ok (PRef 5, PRef 21),
   <[22%positive := PDict {[ PStr "city" := PStr "1" ]}]>
     (Scenario.world (PStr "W") (PRef 22))).
Proof.
  rewrite (proj2 (in_options_capture (Scenario.app "HOME") (PRef 21) (PRef 31)
             (Scenario.world (PStr "W") (PRef 22))
             (Scenario.world (PStr "W") (PRef 22))
             (PRef 3) Scenario.city_window (PRef 15) Scenario.city_required
             (PStr "s1") "1" (PStr "84") Scenario.city_options (PRef 14)
             Scenario.option_maputo (PStr "NEXT") (PStr "city") (PStr "1")
             22%positive ∅
             ltac:(compute_done)
             ltac:(split; [by eexists|compute_done])
             ltac:(split; [compute_done|by eexists])
             ltac:(compute_done) ltac:(compute_done) ltac:(compute_done)
             ltac:(reflexivity)
             ltac:(exists (Scenario.request_of "1");
                   split; [by eexists|compute_done])
             ltac:(exists (PRef 13); split; [compute_done|by eexists])
             ltac:(exists [], []; split; [done|];
                   split; [constructor|compute_done])
             ltac:(by eexists) ltac:(compute_done)
             ltac:(exists (Scenario.session_of (PStr "W") (PRef 22));
                   split; [by eexists|compute_done])
             ltac:(discriminate))).
  compute_done.
Defined.

Lemma in_options_capture_counterexample :
  Scenario.option_maputo !! PStr "display" = Some (PStr "Maputo") ∧
  getitem
    (snd (process_window (Scenario.app "HOME") (PRef 21) (PRef 31)
            (Scenario.world (PStr "W") (PRef 22))))
    (PRef 22) (PStr "city") = Ok (PStr "1") ∧
  getitem
    (snd (process_window (Scenario.app "HOME") (PRef 21) (PRef 31)
            (Scenario.world (PStr "W") (PRef 22))))
    (PRef 22) (PStr "city") ≠ Ok (PStr "Maputo") ∧
  fst (process_window (Scenario.app "HOME") (PRef 21) (PRef 31)
         (Scenario.world (PStr "W") PNone)) = Raise TypeError.
Proof. compute_done. Qed.

(** C1 (the code departs from it): when the window the stored session is
    at declares [required] with [in_options] true and a [window] target and
    no option's [option] field equals the request text, the message of the
    current window is overwritten in place and nothing else is written, but
    line 117 still replaces the window to return by
    [get_window(required.window)], and [process_request] points the session
    at that window. *)
Theorem in_options_miss_advances self request session h00 h0 h lw dw
    required dr sn r cn xs target :
  stored_session self request session h00 h0 →
  process_window_resolve self session request h0 = (Ok (PRef lw), h) →
  is_window h (PRef lw) dw → declares_required h dw required dr →
  dr !! PStr "window" = Some target → in_options_set dr →
  is_request h request sn (PStr r) cn →
  window_options h dw xs → no_option h r xs →
  process_window self session request h0 =
    (let! window := get_window self target in ret (window, session))
      (<[lw := PDict (<[PStr "message" := invalid_option_message]> dw)]> h) ∧
  process_request self request h00 =
    (let! window := get_window self target in
     process_request_finish self window session)
      (<[lw := PDict (<[PStr "message" := invalid_option_message]> dw)]> h).
Proof.
  intros Hstored Hres Hw Hreq Htarget Hset Hq Hxs Hnone.
  assert (process_window self session request h0 =
    (let! window := get_window self target in ret (window, session))
      (<[lw := PDict (<[PStr "message" := invalid_option_message]> dw)]> h))
    as Hpw.
  { unfold process_window. rewrite (bind_ok _ _ _ _ _ Hres).
    rewrite (transition_required _ _ _ _ _ _ _ _ _ _ _ Hw Hreq Hq).
    destruct Hreq as [_ Hreq], Hw as [(? & [= <-] & Hw) _].
    eauto using required_in_options_miss. }
  split; [done|].
  rewrite (process_request_stored _ _ _ _ _ Hstored).
  unfold bind at 1. rewrite Hpw. unfold bind, ret.
  by destruct (get_window _ _ _) as [[?|?] ?].
Qed.

Lemma in_options_miss_advances_witness :
  process_request (Scenario.app "HOME") (PRef 30)
    (Scenario.world (PStr "W") (PRef 22)) =
  (Ok (PRef 5),
   <[21%positive := PDict (Scenario.session_of (PStr "NEXT") (PRef 22))]>
     (<[3%positive := PDict (<[PStr "message" := invalid_option_message]>
                               Scenario.city_window)]>
        (Scenario.world (PStr "W") (PRef 22)))).
Proof.
  rewrite (proj2 (in_options_miss_advances (Scenario.app "HOME") (PRef 30)
             (PRef 21)
             (Scenario.world (PStr "W") (PRef 22))
             (Scenario.world (PStr "W") (PRef 22))
             (Scenario.world (PStr "W") (PRef 22))
             3%positive Scenario.city_window (PRef 15) Scenario.city_required
             (PStr "s1") "9" (PStr "84") Scenario.city_options (PStr "NEXT")
             ltac:(exists (PStr "s1"), (PStr "9"), (PStr "84");
                   split; [|split; [compute_done|discriminate]];
                   exists (Scenario.request_of "9");
                   split; [by eexists|compute_done])
             ltac:(compute_done)
             ltac:(split; [by eexists|compute_done])
             ltac:(split; [compute_done|by eexists])
             ltac:(compute_done) ltac:(compute_done)
             ltac:(exists (Scenario.request_of "9");
                   split; [by eexists|compute_done])
             ltac:(exists (PRef 13); split; [compute_done|by eexists])
             ltac:(repeat constructor; exists (PStr "1");
                   split; [compute_done|discriminate]))).
  compute_done.
Defined.

(** C3 (the code departs from it): when the window the stored session is
    at declares a [required] without a [window] target, the error window is
    built and dropped, [process_window] returns no window, and
    [process_request] raises [TypeError] when it subscripts it. *)
Theorem required_without_window_raises self request session h00 h0 h w dw
    required dr sn rs cn :
  stored_session self request session h00 h0 →
  process_window_resolve self session request h0 = (Ok w, h) →
  is_window h w dw → declares_required h dw required dr →
  dr !! PStr "window" = None →
  is_request h request sn rs cn →
  process_window self session request h0 =
    (Ok (PNone, session),
     snd (create_error_window (PStr "Error processing your request") h)) ∧
  process_request self request h00 =
    (Raise TypeError,
     snd (create_error_window (PStr "Error processing your request") h)).
Proof.
  intros Hstored Hres Hw Hreq Htarget Hq.
  assert (process_window self session request h0 =
    (Ok (PNone, session),
     snd (create_error_window (PStr "Error processing your request") h)))
    as Hpw.
  { unfold process_window. rewrite (bind_ok _ _ _ _ _ Hres).
    rewrite (transition_required _ _ _ _ _ _ _ _ _ _ _ Hw Hreq Hq).
    destruct Hreq as [_ Hreq].
    by rewrite (required_without_target _ _ _ _ _ _ _ _ Hreq Htarget). }
  split; [done|].
  rewrite (process_request_stored _ _ _ _ _ Hstored).
  by rewrite (bind_ok _ _ _ _ _ Hpw).
Qed.

Lemma required_without_window_raises_witness :
  fst (process_request (Scenario.app "HOME") (PRef 32)
         (Scenario.world (PStr "BROKEN") (PRef 22))) = Raise TypeError.
Proof.
  rewrite (proj2 (required_without_window_raises (Scenario.app "HOME")
             (PRef 32) (PRef 21)
             (Scenario.world (PStr "BROKEN") (PRef 22))
             (Scenario.world (PStr "BROKEN") (PRef 22))
             (Scenario.world (PStr "BROKEN") (PRef 22))
             (PRef 6) Scenario.broken_window (PRef 18)
             Scenario.broken_required (PStr "s1") (PStr "34") (PStr "84")
             ltac:(exists (PStr "s1"), (PStr "34"), (PStr "84");
                   split; [|split; [compute_done|discriminate]];
                   exists (Scenario.request_of "34");
                   split; [by eexists|compute_done])
             ltac:(compute_done)
             ltac:(split; [by eexists|compute_done])
             ltac:(split; [compute_done|by eexists])
             ltac:(compute_done)
             ltac:(exists (Scenario.request_of "34");
                   split; [by eexists|compute_done]))).
  reflexivity.
Defined.

(** C5 (the code departs from it): [get_window] does answer [None] for a
    name the registry lacks, but [process_request] never returns [None]: it
    returns a reference or raises.  With an unknown initial window, an
    option leading to an unknown window, or a session at an unknown window,
    it raises [TypeError]. *)
Theorem process_request_never_absent :
  (∀ self request h,
     (∃ e, fst (process_request self request h) = Raise e) ∨
     (∃ l, fst (process_request self request h) = Ok (PRef l))) ∧
  get_window (Scenario.app "NOWHERE") (PStr "NOWHERE") Scenario.fresh_world
    = (Ok PNone, Scenario.fresh_world) ∧
  fst (process_request (Scenario.app "NOWHERE") (PRef 30)
         Scenario.fresh_world) = Raise TypeError ∧
  process_window (Scenario.app "HOME") (PRef 21) (PRef 33)
    (Scenario.world (PStr "HOME") (PRef 22))
    = (Ok (PNone, PRef 21), Scenario.world (PStr "HOME") (PRef 22)) ∧
  fst (process_request (Scenario.app "HOME") (PRef 33)
         (Scenario.world (PStr "HOME") (PRef 22))) = Raise TypeError ∧
  fst (process_request (Scenario.app "HOME") (PRef 31)
         (Scenario.world (PStr "GONE") (PRef 22))) = Raise TypeError.
Proof.
  split; [|compute_done].
  intros self request h.
  destruct (process_request self request h) as [[w|e] h'] eqn:E;
    [right|left; eauto].
  unfold process_request in E.
  apply bind_ok_inv in E as (session_nr & h1 & _ & E).
  apply bind_ok_inv in E as (request_str & h2 & _ & E).
  apply bind_ok_inv in E as (cell_nr & h3 & _ & E).
  apply bind_ok_inv in E as (session0 & h4 & _ & E).
  apply bind_ok_inv in E as ([window session] & h5 & _ & E).
  apply finish_ok_inv in E as (-> & h6 & name & r & Hname & _).
  apply getitem_field_inv in Hname as (l & d & -> & _). eauto.
Qed.

(** ** Windows built by [create_window] *)

Lemma window_fields_dom name title message options active window_type :
  dom (window_fields name title message options active window_type) =
  ({[ PStr "name"; PStr "message"; PStr "title"; PStr "options";
      PStr "active"; PStr "type" ]} : gset pyval).
Proof.
  unfold window_fields, dict_of. cbn [fmap list_fmap prod_map fst snd id].
  cbn [list_to_map foldr uncurry]. rewrite !dom_insert_L, dom_empty_L.
  set_solver.
Qed.

Lemma create_window_fresh name title message options required active
    window_type :
  (∀ h, create_window name title message options required active
          window_type h =
        (Ok (PRef (fresh (dom h))),
         <[fresh (dom h) :=
             PDict (window_fields name title message options active
                      window_type)]> h)) ∧
  window_fields name title message options active window_type
    !! PStr "required" = None.
Proof. done. Qed.

(** C10: whatever its arguments, [create_window] returns a new dict with
    exactly the keys name, message, title, options, active and type; the
    [required] argument leaves no trace, and [process_window] takes the
    branch of a window without [required] on such a dict. *)
Theorem create_window_discards_required
    name title message options required active window_type :
  (∀ h, create_window name title message options required active
          window_type h =
        (Ok (PRef (fresh (dom h))),
         <[fresh (dom h) :=
             PDict (window_fields name title message options active
                      window_type)]> h)) ∧
  dom (window_fields name title message options active window_type) =
    ({[ PStr "name"; PStr "message"; PStr "title"; PStr "options";
        PStr "active"; PStr "type" ]} : gset pyval) ∧
  window_fields name title message options active window_type
    !! PStr "required" = None ∧
  (∀ self session request sn rs cn w h0 h,
     process_window_resolve self session request h0 = (Ok w, h) →
     is_dict h w (window_fields name title message options active
                    window_type) →
     is_request h request sn rs cn →
     process_window self session request h0 =
     process_window_select self w session request sn h).
Proof.
  split_and!; [done|apply window_fields_dom|done|].
  intros self session request sn rs cn w h0 h Hres Hw Hq.
  unfold process_window. rewrite (bind_ok _ _ _ _ _ Hres).
  apply (transition_select _ _ _
           (window_fields name title message options active window_type)
           _ _ sn rs cn); [|done..].
  split; [done|]. split_and!; by eexists.
Qed.

Lemma create_window_discards_required_witness :
  process_window (Scenario.app "HOME") (PRef 21) (PRef 31)
    (Scenario.world (PStr "HOME") (PRef 22)) =
  (Ok (PRef 3, PRef 21), Scenario.world (PStr "HOME") (PRef 22)).
Proof.
  rewrite (proj2 (proj2 (proj2 (create_window_discards_required
             (PStr "HOME") (PStr "Lottus") (PStr "Welcome") (PRef 10)
             (PRef 15) (PBool true) (PStr "FORM"))))
             (Scenario.app "HOME") (PRef 21) (PRef 31)
             (PStr "s1") (PStr "1") (PStr "84") (PRef 2)
             (Scenario.world (PStr "HOME") (PRef 22))
             (Scenario.world (PStr "HOME") (PRef 22))
             ltac:(compute_done)
             ltac:(by eexists)
             ltac:(exists (Scenario.request_of "1");
                   split; [by eexists|compute_done])).
  compute_done.
Defined.

(** ** Sessions returned by window processors *)

Lemma bind_in_mapped {B} self k (K : bool → M B) h :
  py_hashable h k = true →
  bind (in_mapped_windows self k) K h =
  K (bool_decide (is_Some (mapped_windows self !! k))) h.
Proof.
  intros Hk. unfold in_mapped_windows. apply bind_lift_ok. by rewrite Hk.
Qed.

Lemma get_mapped_window_registered self k session request (p : processor) h :
  py_hashable h k = true → mapped_windows self !! k = Some p →
  get_mapped_window self k session request h = p session request h.
Proof.
  intros Hk Hp. unfold get_mapped_window.
  rewrite (bind_in_mapped _ _ _ _ Hk), Hp.
  by rewrite bool_decide_eq_true_2 by eauto.
Qed.

(** Lines 54-59: on a new session the processor's session replaces the one
    just created. *)
Lemma new_session_mapped self request sn rs cn h h0 session h1
    (p : processor) w s' h2 :
  is_request h request sn rs cn →
  sm_get (session_manager self) sn cn h = (Ok PNone, h0) →
  create_session sn cn (initial_window self) PNone h0 = (Ok session, h1) →
  py_hashable h1 (initial_window self) = true →
  mapped_windows self !! initial_window self = Some p →
  p session request h1 = (Ok (w, s'), h2) →
  process_request self request h =
  (match window_cache self with
   | Some cache => wc_cache cache w sn ;; process_request_finish self w s'
   | None => process_request_finish self w s'
   end) h2.
Proof.
  intros (dq & (lq & -> & Hq) & Hsn & Hrs & Hcn) Hget Hnew Hk Hp Hrun.
  unfold process_request.
  rewrite (bind_getitem _ _ _ _ sn) by eauto using getitem_field_Some.
  rewrite (bind_getitem _ _ _ _ rs) by eauto using getitem_field_Some.
  rewrite (bind_getitem _ _ _ _ cn) by eauto using getitem_field_Some.
  rewrite (bind_ok _ _ _ _ _ Hget). py_norm.
  rewrite (bind_ok _ _ _ _ _ Hnew). py_norm.
  rewrite (bind_in_mapped _ _ _ _ Hk), Hp, bool_decide_eq_true_2 by eauto.
  py_norm.
  rewrite (bind_ok _ _ _ _ _
             (eq_trans (get_mapped_window_registered _ _ _ _ _ _ Hk Hp) Hrun)).
  destruct (window_cache self); by py_norm.
Qed.

(** Lines 127-131: the session of the processor of the selected option's
    target replaces the session of the turn. *)
Lemma select_mapped self aw session request sn so target
    (p : processor) w s' h h2 :
  get_selected_option self aw request h = (Ok so, h) → so ≠ PNone →
  getitem h so (PStr "window") = Ok target →
  py_hashable h target = true → mapped_windows self !! target = Some p →
  p session request h = (Ok (w, s'), h2) →
  process_window_select self aw session request sn h =
  (match window_cache self with
   | Some cache => wc_cache cache w sn ;; ret (w, s')
   | None => ret (w, s')
   end) h2.
Proof.
  intros Hsel Hso Htarget Hk Hp Hrun. unfold process_window_select.
  rewrite (bind_ok _ _ _ _ _ Hsel). py_norm.
  rewrite (bind_getitem _ _ _ _ _ Htarget).
  rewrite (bind_in_mapped _ _ _ _ Hk), Hp, bool_decide_eq_true_2 by eauto.
  rewrite (bind_getitem _ _ _ _ _ Htarget).
  by rewrite (bind_ok _ _ _ _ _
                (eq_trans (get_mapped_window_registered _ _ _ _ _ _ Hk Hp)
                   Hrun)).
Qed.

(** Lines 86-87: the processor of the current window supplies the window;
    its session is bound to [old_session] and not used. *)
Lemma resolve_mapped self session request name h0 ha h1
    (p : processor) w s' h2 :
  getitem h0 session (PStr "window") = Ok name →
  Spec.cache_scoped self name request h0 = (Ok PNone, ha) →
  Spec.cache_unscoped self name ha = (Ok PNone, h1) →
  py_hashable h1 name = true → mapped_windows self !! name = Some p →
  p session request h1 = (Ok (w, s'), h2) → w ≠ PNone →
  process_window_resolve self session request h0 = (Ok w, h2).
Proof.
  intros Hname Hscoped Hunscoped Hk Hp Hrun Hw.
  rewrite resolve_refines. unfold Spec.resolve_in_order.
  rewrite (bind_getitem _ _ _ _ _ Hname). cbn [Spec.first_present].
  rewrite (bind_ok _ _ _ _ _ Hscoped). py_norm.
  rewrite (bind_ok _ _ _ _ _ Hunscoped). py_norm.
  unfold Spec.dynamic_resolver. py_norm.
  rewrite (bind_in_mapped _ _ _ _ Hk), Hp, bool_decide_eq_true_2 by eauto.
  py_norm.
  rewrite (bind_ok _ _ _ _ _
             (eq_trans (get_mapped_window_registered _ _ _ _ _ _ Hk Hp) Hrun)).
  by py_norm.
Qed.

(** C8 (amended): the session a processor returns is the one the engine
    goes on with and saves when the processor is called for the initial
    window of a new session or for the target of the selected option; when
    it is called for the current window of a stored session its session is
    dropped: the transition out of the resolved window is run on the
    session the session manager handed out, and [process_request] finishes
    on the window and the session that transition returns. *)
Theorem processor_session_propagation self request :
  (∀ sn rs cn h h0 session h1 (p : processor) w s' h2,
     is_request h request sn rs cn →
     sm_get (session_manager self) sn cn h = (Ok PNone, h0) →
     create_session sn cn (initial_window self) PNone h0 = (Ok session, h1) →
     py_hashable h1 (initial_window self) = true →
     mapped_windows self !! initial_window self = Some p →
     p session request h1 = (Ok (w, s'), h2) →
     process_request self request h =
     (match window_cache self with
      | Some cache => wc_cache cache w sn ;; process_request_finish self w s'
      | None => process_request_finish self w s'
      end) h2) ∧
  (∀ session h00 h0 h aw dw sn rs cn so target (p : processor) w s' h2,
     stored_session self request session h00 h0 →
     process_window_resolve self session request h0 = (Ok aw, h) →
     is_window h aw dw → dw !! PStr "required" = None →
     is_request h request sn rs cn →
     get_selected_option self aw request h = (Ok so, h) → so ≠ PNone →
     getitem h so (PStr "window") = Ok target →
     py_hashable h target = true → mapped_windows self !! target = Some p →
     p session request h = (Ok (w, s'), h2) →
     process_request self request h00 =
     (match window_cache self with
      | Some cache => wc_cache cache w sn ;; process_request_finish self w s'
      | None => process_request_finish self w s'
      end) h2) ∧
  (∀ session h00 h0 name ha h1 (p : processor) w s' h2,
     stored_session self request session h00 h0 →
     getitem h0 session (PStr "window") = Ok name →
     Spec.cache_scoped self name request h0 = (Ok PNone, ha) →
     Spec.cache_unscoped self name ha = (Ok PNone, h1) →
     py_hashable h1 name = true → mapped_windows self !! name = Some p →
     p session request h1 = (Ok (w, s'), h2) → w ≠ PNone →
     process_request self request h00 =
     (let! (window, session) :=
        process_window_transition self w session request in
      process_request_finish self window session) h2).
Proof.
  split_and!.
  - intros. eauto using new_session_mapped.
  - intros session h00 h0 h aw dw sn rs cn so target p w s' h2
      Hstored Hres Haw Hreq Hq Hsel Hso Htarget Hk Hp Hrun.
    rewrite (process_request_stored _ _ _ _ _ Hstored).
    unfold process_window. py_norm. rewrite (bind_ok _ _ _ _ _ Hres).
    rewrite (bind_cong_l _ _ _ _ _
               (eq_trans (transition_select _ _ _ _ _ _ _ _ _ Haw Hreq Hq)
                  (select_mapped _ _ _ _ _ _ _ _ _ _ _ _
                     Hsel Hso Htarget Hk Hp Hrun))).
    destruct (window_cache self); by py_norm.
  - intros session h00 h0 name ha h1 p w s' h2
      Hstored Hname Hscoped Hunscoped Hk Hp Hrun Hw.
    rewrite (process_request_stored _ _ _ _ _ Hstored).
    unfold process_window. py_norm.
    by rewrite (bind_ok _ _ _ _ _
                  (resolve_mapped _ _ _ _ _ _ _ _ _ _ _
                     Hname Hscoped Hunscoped Hk Hp Hrun Hw)).
Qed.

Lemma processor_session_propagation_witness :
  getitem
    (snd (process_request Scenario.app_mapped (PRef 31) Scenario.fresh_world))
    (PRef 20) (PStr "s1") = Ok (PRef 36) ∧
  getitem
    (snd (process_request Scenario.app_mapped_target (PRef 31)
            (Scenario.world (PStr "HOME") (PRef 22))))
    (PRef 20) (PStr "s1") = Ok (PRef 35) ∧
  getitem
    (snd (process_request Scenario.app_mapped (PRef 31)
            (Scenario.world (PStr "HOME") (PRef 22))))
    (PRef 20) (PStr "s1") = Ok (PRef 21).
Proof.
  split_and!.
  - rewrite (proj1 (processor_session_propagation Scenario.app_mapped
               (PRef 31))
               (PStr "s1") (PStr "1") (PStr "84")
               Scenario.fresh_world Scenario.fresh_world (PRef 34)
               (snd (create_session (PStr "s1") (PStr "84") (PStr "HOME")
                       PNone Scenario.fresh_world))
               Scenario.home_processor (PRef 2) (PRef 36)
               (snd (Scenario.home_processor (PRef 34) (PRef 31)
                       (snd (create_session (PStr "s1") (PStr "84")
                               (PStr "HOME") PNone Scenario.fresh_world))))
               ltac:(exists (Scenario.request_of "1");
                     split; [by eexists|compute_done])
               ltac:(compute_done) ltac:(compute_done) ltac:(reflexivity)
               ltac:(apply lookup_insert_eq) ltac:(compute_done)).
    compute_done.
  - rewrite (proj1 (proj2 (processor_session_propagation
               Scenario.app_mapped_target (PRef 31)))
               (PRef 21)
               (Scenario.world (PStr "HOME") (PRef 22))
               (Scenario.world (PStr "HOME") (PRef 22))
               (Scenario.world (PStr "HOME") (PRef 22))
               (PRef 2) Scenario.home_window
               (PStr "s1") (PStr "1") (PStr "84") (PRef 11) (PStr "W")
               (Scenario.replacing_processor (PRef 3) (PStr "W"))
               (PRef 3) (PRef 35)
               (snd (Scenario.replacing_processor (PRef 3) (PStr "W")
                       (PRef 21) (PRef 31)
                       (Scenario.world (PStr "HOME") (PRef 22))))
               ltac:(exists (PStr "s1"), (PStr "1"), (PStr "84");
                     split; [|split; [compute_done|discriminate]];
                     exists (Scenario.request_of "1");
                     split; [by eexists|compute_done])
               ltac:(compute_done)
               ltac:(split; [by eexists|compute_done])
               ltac:(compute_done)
               ltac:(exists (Scenario.request_of "1");
                     split; [by eexists|compute_done])
               ltac:(compute_done) ltac:(discriminate) ltac:(compute_done)
               ltac:(reflexivity) ltac:(apply lookup_insert_eq)
               ltac:(compute_done)).
    compute_done.
  - rewrite (proj2 (proj2 (processor_session_propagation
               Scenario.app_mapped (PRef 31)))
               (PRef 21)
               (Scenario.world (PStr "HOME") (PRef 22))
               (Scenario.world (PStr "HOME") (PRef 22))
               (PStr "HOME")
               (Scenario.world (PStr "HOME") (PRef 22))
               (Scenario.world (PStr "HOME") (PRef 22))
               Scenario.home_processor (PRef 2) (PRef 35)
               (snd (Scenario.home_processor (PRef 21) (PRef 31)
                       (Scenario.world (PStr "HOME") (PRef 22))))
               ltac:(exists (PStr "s1"), (PStr "1"), (PStr "84");
                     split; [|split; [compute_done|discriminate]];
                     exists (Scenario.request_of "1");
                     split; [by eexists|compute_done])
               ltac:(compute_done) ltac:(reflexivity) ltac:(reflexivity)
               ltac:(reflexivity) ltac:(apply lookup_insert_eq)
               ltac:(compute_done) ltac:(discriminate)).
    compute_done.
Defined.

Lemma processor_session_propagation_counterexample :
  is_Some (mapped_windows Scenario.app_mapped !! PStr "HOME") ∧
  fst (Scenario.home_processor (PRef 21) (PRef 31)
         (Scenario.world (PStr "HOME") (PRef 22))) = Ok (PRef 2, PRef 35) ∧
  fst (process_request Scenario.app_mapped (PRef 31)
         (Scenario.world (PStr "HOME") (PRef 22))) = Ok (PRef 3) ∧
  getitem
    (snd (process_request Scenario.app_mapped (PRef 31)
            (Scenario.world (PStr "HOME") (PRef 22))))
    (PRef 20) (PStr "s1") = Ok (PRef 21) ∧
  getitem
    (snd (process_request Scenario.app_mapped (PRef 31)
            (Scenario.world (PStr "HOME") (PRef 22))))
    (PRef 21) (PStr "window") = Ok (PStr "W") ∧
  getitem
    (snd (process_request Scenario.app_mapped (PRef 31)
            (Scenario.world (PStr "HOME") (PRef 22))))
    (PRef 35) (PStr "window") = Ok (PStr "HOME").
Proof. split; [eexists; apply lookup_insert_eq|compute_done]. Qed.

(** ** The response projection *)

Lemma is_dict_weaken h h' v d : h ⊆ h' → is_dict h v d → is_dict h' v d.
Proof. intros Hsub (l & -> & Hl). exists l. eauto using lookup_weaken. Qed.

Lemma is_option_weaken h h' x od : h ⊆ h' → is_option h x od → is_option h' x od.
Proof. intros Hsub (dx & ? & ?). exists dx. eauto using is_dict_weaken. Qed.

Lemma alloc_extends (h : heap) o : h ⊆ <[fresh (dom h) := o]> h.
Proof. apply insert_subseteq, not_elem_of_dom, is_fresh. Qed.

Lemma option_response_ok h x od :
  is_option h x od →
  option_response x h =
    (Ok (PRef (fresh (dom h))),
     <[fresh (dom h) := PDict (option_fields od.1 od.2)]> h).
Proof.
  intros (dx & (lx & -> & Hx) & Ho & Hd). unfold option_response.
  rewrite bind_bool. cbn [py_truthy]. rewrite Hx.
  rewrite bool_decide_eq_false_2
    by (intros ->; by rewrite lookup_empty in Ho).
  cbn [negb].
  rewrite (bind_getitem _ _ _ _ od.1) by eauto using getitem_field_Some.
  by rewrite (bind_getitem _ _ _ _ od.2) by eauto using getitem_field_Some.
Qed.

Lemma option_responses_ok xs : ∀ h ods,
  Forall2 (is_option h) xs ods →
  ∃ items h',
    option_responses xs h = (Ok items, h') ∧ h ⊆ h' ∧
    Forall2 (λ item od, is_dict h' item (option_fields od.1 od.2)) items ods.
Proof.
  induction xs as [|x xs IH]; intros h ods Hall.
  - apply Forall2_nil_inv_l in Hall as ->. by exists [], h.
  - apply Forall2_cons_inv_l in Hall as (od & ods' & Hx & Hall & ->).
    pose proof (alloc_extends h (PDict (option_fields od.1 od.2))) as Hsub.
    destruct (IH (<[fresh (dom h) := PDict (option_fields od.1 od.2)]> h) ods')
      as (items & h' & Hrun & Hsub' & Hitems).
    { eapply Forall2_impl; [done|]. eauto using is_option_weaken. }
    exists (PRef (fresh (dom h)) :: items), h'. split_and!.
    + cbn [option_responses].
      rewrite (bind_ok _ _ _ _ _ (option_response_ok _ _ _ Hx)).
      by rewrite (bind_ok _ _ _ _ _ Hrun).
    + by etrans.
    + constructor; [|done]. eexists. split; [done|].
      eapply lookup_weaken; [apply lookup_insert_eq|done].
Qed.

Lemma response_fields_dom message title options :
  dom (response_fields message title options) =
  ({[ PStr "message"; PStr "title"; PStr "options" ]} : gset pyval).
Proof.
  unfold response_fields, dict_of. cbn [fmap list_fmap prod_map fst snd id].
  cbn [list_to_map foldr uncurry]. rewrite !dom_insert_L, dom_empty_L.
  set_solver.
Qed.

Lemma option_fields_dom option value :
  dom (option_fields option value) =
  ({[ PStr "option"; PStr "value" ]} : gset pyval).
Proof.
  unfold option_fields, dict_of. cbn [fmap list_fmap prod_map fst snd id].
  cbn [list_to_map foldr uncurry]. rewrite !dom_insert_L, dom_empty_L.
  set_solver.
Qed.

Lemma window_response_ok h w dw ods :
  is_dict h w dw → dw ≠ ∅ → projectable_options h dw ods →
  ∃ r h', window_response w h = (Ok r, h') ∧ h ⊆ h' ∧
          is_response h' r (default PNone (dw !! PStr "message"))
            (default PNone (dw !! PStr "title")) ods.
Proof.
  intros (lw & -> & Hw) Hne Hopts. unfold window_response.
  rewrite bind_bool. cbn [py_truthy]. rewrite Hw.
  rewrite bool_decide_eq_false_2 by done. cbn [negb].
  rewrite (bind_contains _ _ _ _ _ (contains_field _ _ _ _ Hw)).
  assert ((let! message :=
             if bool_decide (is_Some (dw !! PStr "message"))
             then py_getitem (PRef lw) (PStr "message") else ret PNone in
           ret message) h = (Ok (default PNone (dw !! PStr "message")), h))
    as Hmessage.
  { destruct (dw !! PStr "message") as [m|] eqn:E.
    - rewrite bool_decide_eq_true_2 by eauto.
      by rewrite (bind_getitem _ _ _ _ m) by eauto using getitem_field_Some.
    - by rewrite bool_decide_eq_false_2 by (by intros [? ?]). }
  rewrite bind_ret_r in Hmessage. rewrite (bind_ok _ _ _ _ _ Hmessage).
  rewrite (bind_contains _ _ _ _ _ (contains_field _ _ _ _ Hw)).
  assert ((let! title :=
             if bool_decide (is_Some (dw !! PStr "title"))
             then py_getitem (PRef lw) (PStr "title") else ret PNone in
           ret title) h = (Ok (default PNone (dw !! PStr "title")), h))
    as Htitle.
  { destruct (dw !! PStr "title") as [t|] eqn:E.
    - rewrite bool_decide_eq_true_2 by eauto.
      by rewrite (bind_getitem _ _ _ _ t) by eauto using getitem_field_Some.
    - by rewrite bool_decide_eq_false_2 by (by intros [? ?]). }
  rewrite bind_ret_r in Htitle. rewrite (bind_ok _ _ _ _ _ Htitle).
  rewrite (bind_contains _ _ _ _ _ (contains_field _ _ _ _ Hw)).
  destruct Hopts as [[Hnone ->]|(xs & (options & Hsome & lo & -> & Hlo) & Hall)].
  - rewrite bool_decide_eq_false_2 by (rewrite Hnone; by intros [? ?]).
    set (h1 := <[fresh (dom h) := PList []]> h).
    assert (h ⊆ h1) as Hsub1 by apply alloc_extends.
    eexists _, _. split; [reflexivity|]. fold h1. split.
    + trans h1; [done|apply alloc_extends].
    + exists (PRef (fresh (dom h))), []. split_and!.
      * eexists. split; [done|]. apply lookup_insert_eq.
      * eexists. split; [done|].
        eapply lookup_weaken; [apply lookup_insert_eq|apply alloc_extends].
      * constructor.
  - rewrite bool_decide_eq_true_2 by eauto. py_norm.
    rewrite (bind_getitem _ _ _ _ (PRef lo)) by eauto using getitem_field_Some.
    py_norm.
    rewrite (bind_iter _ _ _ xs) by (by unfold iter_items; rewrite Hlo).
    py_norm.
    destruct (option_responses_ok xs h ods Hall)
      as (items & h1 & Hrun & Hsub1 & Hitems).
    rewrite (bind_ok _ _ _ _ _ Hrun).
    set (h2 := <[fresh (dom h1) := PList items]> h1).
    assert (h1 ⊆ h2) as Hsub2 by apply alloc_extends.
    eexists _, _. split; [reflexivity|]. fold h2. split.
    + trans h1; [done|]. trans h2; [done|apply alloc_extends].
    + exists (PRef (fresh (dom h1))), items. split_and!.
      * eexists. split; [done|]. apply lookup_insert_eq.
      * eexists. split; [done|].
        eapply lookup_weaken; [apply lookup_insert_eq|apply alloc_extends].
      * eapply Forall2_impl; [done|]. intros item od Hitem.
        eapply is_dict_weaken; [|exact Hitem].
        trans h2; [done|apply alloc_extends].
Qed.

(** X10: projecting a non-empty window dict whose [options] key is missing
    or holds a list of options, each a dict with an [option] and a [display]
    field, allocates and returns a dict with exactly the keys
    message, title and options: the window's message and title ([None] when
    the key is missing) and a new list with one dict per option, in order,
    with exactly the keys option and value, the value being the option's
    display; the objects that were on the heap are left as they were.
    Projecting [None] gives [None]. *)
Lemma window_response_projection :
  (∀ h w dw ods,
     is_dict h w dw → dw ≠ ∅ → projectable_options h dw ods →
     ∃ r h', window_response w h = (Ok r, h') ∧ h ⊆ h' ∧
             is_response h' r (default PNone (dw !! PStr "message"))
               (default PNone (dw !! PStr "title")) ods) ∧
  (∀ message title options,
     dom (response_fields message title options) =
     ({[ PStr "message"; PStr "title"; PStr "options" ]} : gset pyval)) ∧
  (∀ option value,
     dom (option_fields option value) =
     ({[ PStr "option"; PStr "value" ]} : gset pyval)) ∧
  (∀ h, window_response PNone h = (Ok PNone, h)).
Proof.
  split_and!;
    [apply window_response_ok | apply response_fields_dom
    | apply option_fields_dom | done].
Qed.

Example window_response_of_home :
  ∃ r h',
    window_response (PRef 2) (Scenario.world (PStr "HOME") (PRef 22)) =
      (Ok r, h') ∧
    Scenario.world (PStr "HOME") (PRef 22) ⊆ h' ∧
    is_response h' r (PStr "Welcome") (PStr "Lottus")
      [(PStr "1", PStr "Choose a city"); (PStr "2", PStr "Enter an age");
       (PStr "3", PStr "Help")].
Proof.
  apply (proj1 window_response_projection
           (Scenario.world (PStr "HOME") (PRef 22)) (PRef 2)
           Scenario.home_window
           [(PStr "1", PStr "Choose a city"); (PStr "2", PStr "Enter an age");
            (PStr "3", PStr "Help")]).
  - by eexists.
  - compute_done.
  - right. exists Scenario.home_options. split.
    + exists (PRef 10). split; [compute_done|by eexists].
    + repeat constructor.
      * exists Scenario.option_city. split; [by eexists|compute_done].
      * exists Scenario.option_age. split; [by eexists|compute_done].
      * exists Scenario.option_help. split; [by eexists|compute_done].
Defined.

(** C9 (the code departs from it): a window whose options are absent the
    way [create_window] leaves them, the key present with the value
    [None], cannot be projected: the membership test on line 342 succeeds
    and the comprehension iterates [None], which raises [TypeError]. *)
Theorem window_response_raises_on_absent_options h w dw :
  is_dict h w dw → dw !! PStr "options" = Some PNone →
  window_response w h = (Raise TypeError, h).
Proof.
  intros (lw & -> & Hw) Hopts. unfold window_response.
  rewrite bind_bool. cbn [py_truthy]. rewrite Hw.
  rewrite bool_decide_eq_false_2
    by (intros ->; by rewrite lookup_empty in Hopts).
  cbn [negb].
  rewrite (bind_contains _ _ _ _ _ (contains_field _ _ _ _ Hw)).
  assert (∀ k : string,
    (let! x :=
       if bool_decide (is_Some (dw !! PStr k))
       then py_getitem (PRef lw) (PStr k) else ret PNone in
     ret x) h = (Ok (default PNone (dw !! PStr k)), h)) as Hfield.
  { intros k. destruct (dw !! PStr k) as [m|] eqn:E.
    - rewrite bool_decide_eq_true_2 by eauto.
      by rewrite (bind_getitem _ _ _ _ m) by eauto using getitem_field_Some.
    - by rewrite bool_decide_eq_false_2 by (by intros [? ?]). }
  pose proof (Hfield "message") as Hmessage.
  rewrite bind_ret_r in Hmessage. rewrite (bind_ok _ _ _ _ _ Hmessage).
  rewrite (bind_contains _ _ _ _ _ (contains_field _ _ _ _ Hw)).
  pose proof (Hfield "title") as Htitle.
  rewrite bind_ret_r in Htitle. rewrite (bind_ok _ _ _ _ _ Htitle).
  rewrite (bind_contains _ _ _ _ _ (contains_field _ _ _ _ Hw)).
  rewrite bool_decide_eq_true_2 by eauto. py_norm.
  by rewrite (bind_getitem _ _ _ _ PNone) by eauto using getitem_field_Some.
Qed.

(** The AGE window of the registry, and the window [create_error_window]
    builds. *)
Lemma window_response_raises_on_absent_options_witness :
  window_response (PRef 4) (Scenario.world (PStr "HOME") (PRef 22))
    = (Raise TypeError, Scenario.world (PStr "HOME") (PRef 22)) ∧
  fst ((let! window :=
          create_error_window (PStr "Error processing your request") in
        window_response window) ∅) = Raise TypeError.
Proof.
  split.
  - apply (window_response_raises_on_absent_options _ _ Scenario.age_window).
    + by eexists.
    + compute_done.
  - rewrite (bind_ok _ _ _ _ _
               (proj1 (create_window_fresh (PStr "ERROR") (PStr "ERROR")
                  (PStr "Error processing your request") PNone PNone
                  (PBool true) (PStr "MESSAGE")) ∅)).
    by rewrite (window_response_raises_on_absent_options _ _
                  (window_fields (PStr "ERROR") (PStr "ERROR")
                     (PStr "Error processing your request") PNone
                     (PBool true) (PStr "MESSAGE")))
      by (try (eexists; split; [done|apply lookup_insert_eq]); done).
Defined.

(** ** The static registry and the processor table *)

(** X7: on a registry that is a dict, [get_window] never raises for a
    hashable name: it answers the registered window, or [None] when the
    name is missing; for an unhashable name (a dict or a list) it raises
    [TypeError].  The heap is left as it was. *)
Theorem get_window_lookup self h lreg dreg name :
  windows self = PRef lreg → h !! lreg = Some (PDict dreg) →
  get_window self name h =
  (if py_hashable h name then Ok (default PNone (dreg !! name))
   else Raise TypeError, h).
Proof.
  intros Hw Hreg.
  unfold get_window. rewrite Hw.
  destruct (py_hashable h name) eqn:Hk.
  - rewrite (bind_contains _ _ _ _ (bool_decide (is_Some (dreg !! name))))
      by (unfold contains; by rewrite Hreg, Hk).
    destruct (dreg !! name) as [w|] eqn:E.
    + rewrite bool_decide_eq_true_2 by eauto.
      unfold py_getitem, lift, getitem. by rewrite Hreg, Hk, E.
    + by rewrite bool_decide_eq_false_2 by (by intros [? ?]).
  - unfold bind, py_contains, lift, contains. by rewrite Hreg, Hk.
Qed.

Lemma get_window_lookup_witness :
  get_window (Scenario.app "HOME") (PStr "NEXT")
    (Scenario.world (PStr "HOME") (PRef 22)) =
    (Ok (PRef 5), Scenario.world (PStr "HOME") (PRef 22)) ∧
  get_window (Scenario.app "HOME") (PStr "HELP")
    (Scenario.world (PStr "HOME") (PRef 22)) =
    (Ok PNone, Scenario.world (PStr "HOME") (PRef 22)) ∧
  get_window (Scenario.app "HOME") (PRef 10)
    (Scenario.world (PStr "HOME") (PRef 22)) =
    (Raise TypeError, Scenario.world (PStr "HOME") (PRef 22)).
Proof.
  split_and!.
  - rewrite (get_window_lookup (Scenario.app "HOME")
               (Scenario.world (PStr "HOME") (PRef 22)) 1%positive
               (dict_of [("HOME", PRef 2); ("W", PRef 3); ("AGE", PRef 4);
                         ("NEXT", PRef 5); ("BROKEN", PRef 6)])
               (PStr "NEXT") eq_refl ltac:(compute_done)).
    compute_done.
  - rewrite (get_window_lookup (Scenario.app "HOME")
               (Scenario.world (PStr "HOME") (PRef 22)) 1%positive
               (dict_of [("HOME", PRef 2); ("W", PRef 3); ("AGE", PRef 4);
                         ("NEXT", PRef 5); ("BROKEN", PRef 6)])
               (PStr "HELP") eq_refl ltac:(compute_done)).
    compute_done.
  - rewrite (get_window_lookup (Scenario.app "HOME")
               (Scenario.world (PStr "HOME") (PRef 22)) 1%positive
               (dict_of [("HOME", PRef 2); ("W", PRef 3); ("AGE", PRef 4);
                         ("NEXT", PRef 5); ("BROKEN", PRef 6)])
               (PRef 10) eq_refl ltac:(compute_done)).
    compute_done.
Defined.

(** X8: a processor registered with [add_window_rule] is the one
    [get_mapped_window] runs under that name; a later registration under
    the same name replaces it; other names are not affected; and for a name
    nothing is registered under, [get_mapped_window] raises
    [UnboundLocalError] (its local [window] was never bound). *)
Theorem add_window_rule_get_mapped_window self name (f g : processor)
    session request h :
  py_hashable h name = true →
  get_mapped_window (add_window_rule self name f) name session request h =
    f session request h ∧
  get_mapped_window (add_window_rule (add_window_rule self name f) name g)
    name session request h = g session request h ∧
  (∀ other, other ≠ name →
     get_mapped_window (add_window_rule self name f) other session request h =
     get_mapped_window self other session request h) ∧
  (mapped_windows self !! name = None →
     get_mapped_window self name session request h =
     (Raise UnboundLocalError, h)).
Proof.
  intros Hk. split_and!.
  - apply get_mapped_window_registered; [done|]. apply lookup_insert_eq.
  - apply get_mapped_window_registered; [done|]. apply lookup_insert_eq.
  - intros other Hne.
    unfold get_mapped_window, in_mapped_windows, bind, lift. cbn [mapped_windows add_window_rule].
    by rewrite lookup_insert_ne.
  - intros Hnone. unfold get_mapped_window.
    rewrite (bind_in_mapped _ _ _ _ Hk), Hnone.
    by rewrite bool_decide_eq_false_2 by (by intros [? ?]).
Qed.

Lemma add_window_rule_get_mapped_window_witness :
  get_mapped_window Scenario.app_mapped (PStr "HOME") (PRef 21) (PRef 31)
    (Scenario.world (PStr "HOME") (PRef 22)) =
    Scenario.home_processor (PRef 21) (PRef 31)
      (Scenario.world (PStr "HOME") (PRef 22)) ∧
  get_mapped_window (Scenario.app "HOME") (PStr "HOME") (PRef 21) (PRef 31)
    (Scenario.world (PStr "HOME") (PRef 22)) =
    (Raise UnboundLocalError, Scenario.world (PStr "HOME") (PRef 22)).
Proof.
  split.
  - apply (proj1 (add_window_rule_get_mapped_window (Scenario.app "HOME")
             (PStr "HOME") Scenario.home_processor Scenario.home_processor
             (PRef 21) (PRef 31) (Scenario.world (PStr "HOME") (PRef 22))
             eq_refl)).
  - apply (proj2 (proj2 (proj2 (add_window_rule_get_mapped_window
             (Scenario.app "HOME") (PStr "HOME") Scenario.home_processor
             Scenario.home_processor (PRef 21) (PRef 31)
             (Scenario.world (PStr "HOME") (PRef 22)) eq_refl)))).
    apply lookup_empty.
Defined.

(** ** Windows without a required spec *)

Lemma select_none_reprompt self lw dw session request sn h :
  h !! lw = Some (PDict dw) →
  get_selected_option self (PRef lw) request h = (Ok PNone, h) →
  process_window_select self (PRef lw) session request sn h =
  (Ok (PRef lw, session),
   <[lw := PDict (<[PStr "message" := invalid_option_message]> dw)]> h).
Proof.
  intros Hw Hsel. unfold process_window_select.
  rewrite (bind_ok _ _ _ _ _ Hsel). py_norm.
  by rewrite (bind_ok _ _ _ _ _ (setitem_field _ _ _ _ _ Hw)).
Qed.

(** Overwriting the message of the dict at [lw] changes no other field of
    any object. *)
Lemma message_update_getitem h lw dw m v (k : string) :
  h !! lw = Some (PDict dw) → k ≠ "message" →
  getitem (<[lw := PDict (<[PStr "message" := m]> dw)]> h) v (PStr k) =
  getitem h v (PStr k).
Proof.
  intros Hw Hk. destruct v as [| |s|l]; try done. unfold getitem.
  destruct (decide (l = lw)) as [->|Hne].
  - rewrite lookup_insert_eq, Hw. cbn [py_hashable].
    rewrite lookup_insert_ne; [done|congruence].
  - by rewrite lookup_insert_ne.
Qed.

(** X2: when the window the stored session is at has no [required] and no
    option's [option] field equals the request text, [process_window]
    returns that same window object with its message overwritten in place
    by the validation prompt, and the session it was given; the override
    stays in the window object (the registry's own, when the window came
    from the registry); [process_request] then points the session at that
    window and saves it. *)
Theorem invalid_selection_reprompts self request session h00 h0 h lw dw
    sn r cn xs :
  stored_session self request session h00 h0 →
  process_window_resolve self session request h0 = (Ok (PRef lw), h) →
  is_window h (PRef lw) dw → dw !! PStr "required" = None →
  is_request h request sn (PStr r) cn →
  window_options h dw xs → no_option h r xs →
  process_window self session request h0 =
    (Ok (PRef lw, session),
     <[lw := PDict (<[PStr "message" := invalid_option_message]> dw)]> h) ∧
  getitem (<[lw := PDict (<[PStr "message" := invalid_option_message]> dw)]> h)
    (PRef lw) (PStr "message") = Ok invalid_option_message ∧
  process_request self request h00 =
    process_request_finish self (PRef lw) session
      (<[lw := PDict (<[PStr "message" := invalid_option_message]> dw)]> h).
Proof.
  intros Hstored Hres Hw Hreq Hq Hxs Hnone.
  assert (process_window self session request h0 =
    (Ok (PRef lw, session),
     <[lw := PDict (<[PStr "message" := invalid_option_message]> dw)]> h))
    as Hpw.
  { unfold process_window. rewrite (bind_ok _ _ _ _ _ Hres).
    rewrite (transition_select _ _ _ _ _ _ _ _ _ Hw Hreq Hq).
    destruct Hw as [Hd _]. pose proof Hd as (? & [= <-] & Hlw).
    apply select_none_reprompt; [done|].
    eauto using get_selected_option_none. }
  split_and!; [done|..].
  - eapply getitem_field_Some; apply lookup_insert_eq.
  - rewrite (process_request_stored _ _ _ _ _ Hstored).
    by rewrite (bind_ok _ _ _ _ _ Hpw).
Qed.

Lemma invalid_selection_reprompts_witness :
  process_request (Scenario.app "HOME") (PRef 30)
    (Scenario.world (PStr "HOME") (PRef 22)) =
  (Ok (PRef 2),
   <[2%positive := PDict (<[PStr "message" := invalid_option_message]>
                            Scenario.home_window)]>
     (Scenario.world (PStr "HOME") (PRef 22))).
Proof.
  rewrite (proj2 (proj2 (invalid_selection_reprompts (Scenario.app "HOME")
             (PRef 30) (PRef 21)
             (Scenario.world (PStr "HOME") (PRef 22))
             (Scenario.world (PStr "HOME") (PRef 22))
             (Scenario.world (PStr "HOME") (PRef 22))
             2%positive Scenario.home_window
             (PStr "s1") "9" (PStr "84") Scenario.home_options
             ltac:(exists (PStr "s1"), (PStr "9"), (PStr "84");
                   split; [|split; [compute_done|discriminate]];
                   exists (Scenario.request_of "9");
                   split; [by eexists|compute_done])
             ltac:(compute_done)
             ltac:(split; [by eexists|compute_done])
             ltac:(compute_done)
             ltac:(exists (Scenario.request_of "9");
                   split; [by eexists|compute_done])
             ltac:(exists (PRef 10); split; [compute_done|by eexists])
             ltac:(repeat constructor;
                   [exists (PStr "1")|exists (PStr "2")|exists (PStr "3")];
                   (split; [compute_done|discriminate]))))).
  compute_done.
Defined.

Lemma message_update_is_request h lw dw m request sn rs cn :
  h !! lw = Some (PDict dw) → is_request h request sn rs cn →
  is_request (<[lw := PDict (<[PStr "message" := m]> dw)]> h)
    request sn rs cn.
Proof.
  intros Hw (dq & (lq & -> & Hq) & Hsn & Hrs & Hcn).
  destruct (decide (lq = lw)) as [->|Hne].
  - simplify_eq. exists (<[PStr "message" := m]> dw). split.
    + eexists. split; [done|]. apply lookup_insert_eq.
    + by rewrite !lookup_insert_ne.
  - exists dq. split; [|done]. eexists. split; [done|].
    by rewrite lookup_insert_ne.
Qed.

Lemma message_update_no_option h lw dw m r xs :
  h !! lw = Some (PDict dw) → no_option h r xs →
  no_option (<[lw := PDict (<[PStr "message" := m]> dw)]> h) r xs.
Proof.
  intros Hw Hnone. eapply Forall_impl; [exact Hnone|].
  intros s (o & Ho & Hne). exists o.
  split; [|done]. unfold option_is.
  by rewrite (message_update_getitem _ _ _ _ _ _ Hw).
Qed.

(** X16: re-prompting is stable.  The first invalid selection on a window
    without [required] overwrites its message; a further invalid selection
    on the same window returns the same window and leaves the heap exactly
    as the first one left it. *)
Theorem repeated_invalid_selection_is_stable self session request h lw dw
    sn r cn xs :
  is_window h (PRef lw) dw → dw !! PStr "required" = None →
  is_request h request sn (PStr r) cn →
  window_options h dw xs → no_option h r xs →
  process_window_transition self (PRef lw) session request h =
    (Ok (PRef lw, session),
     <[lw := PDict (<[PStr "message" := invalid_option_message]> dw)]> h) ∧
  process_window_transition self (PRef lw) session request
    (<[lw := PDict (<[PStr "message" := invalid_option_message]> dw)]> h) =
    (Ok (PRef lw, session),
     <[lw := PDict (<[PStr "message" := invalid_option_message]> dw)]> h).
Proof.
  intros Hw Hreq Hq Hxs Hnone.
  pose proof Hw as ((? & [= <-] & Hlw) & Ho & Ht & Ha).
  split.
  - rewrite (transition_select _ _ _ _ _ _ _ _ _ Hw Hreq Hq).
    apply select_none_reprompt; [done|].
    destruct Hw. eauto using get_selected_option_none.
  - set (dw' := <[PStr "message" := invalid_option_message]> dw).
    set (h' := <[lw := PDict dw']> h).
    assert (h' !! lw = Some (PDict dw')) as Hlw' by apply lookup_insert_eq.
    assert (is_window h' (PRef lw) dw') as Hw'.
    { split; [by eexists|]. unfold dw'. by rewrite !lookup_insert_ne. }
    assert (is_request h' request sn (PStr r) cn) as Hq'
      by eauto using message_update_is_request.
    assert (window_options h' dw' xs) as Hxs'.
    { destruct Hxs as (options & Hopt & lo & -> & Hlo).
      exists (PRef lo). split; [unfold dw'; by rewrite lookup_insert_ne|].
      exists lo. split; [done|]. unfold h'.
      rewrite lookup_insert_ne; [done|congruence]. }
    assert (no_option h' r xs) as Hnone'
      by eauto using message_update_no_option.
    rewrite (transition_select _ _ _ dw' _ _ _ _ _ Hw')
      by (try done; unfold dw'; by rewrite lookup_insert_ne).
    rewrite (select_none_reprompt _ _ dw' _ _ _ _ Hlw')
      by (destruct Hw'; eauto using get_selected_option_none).
    f_equal. unfold h', dw'. by rewrite !insert_insert_eq.
Qed.

Lemma repeated_invalid_selection_is_stable_witness :
  snd (process_window_transition (Scenario.app "HOME") (PRef 2) (PRef 21)
         (PRef 30)
         (snd (process_window_transition (Scenario.app "HOME") (PRef 2)
                 (PRef 21) (PRef 30)
                 (Scenario.world (PStr "HOME") (PRef 22))))) =
  snd (process_window_transition (Scenario.app "HOME") (PRef 2) (PRef 21)
         (PRef 30) (Scenario.world (PStr "HOME") (PRef 22))).
Proof.
  pose proof (repeated_invalid_selection_is_stable (Scenario.app "HOME")
                (PRef 21) (PRef 30)
                (Scenario.world (PStr "HOME") (PRef 22))
                2%positive Scenario.home_window
                (PStr "s1") "9" (PStr "84") Scenario.home_options
                ltac:(split; [by eexists|compute_done])
                ltac:(compute_done)
                ltac:(exists (Scenario.request_of "9");
                      split; [by eexists|compute_done])
                ltac:(exists (PRef 10); split; [compute_done|by eexists])
                ltac:(repeat constructor;
                      [exists (PStr "1")|exists (PStr "2")|exists (PStr "3")];
                      (split; [compute_done|discriminate])))
    as [H1 H2].
  rewrite H1. cbn [snd]. by rewrite H2.
Defined.

Lemma get_window_heap self name h : snd (get_window self name h) = h.
Proof.
  unfold get_window, bind, py_contains, py_getitem, lift, ret.
  destruct (contains h name (windows self)) as [[]|]; done.
Qed.

(** X3: when the window the stored session is at has no [required], the
    first option whose [option] field equals the request text is selected,
    and if no processor is registered under its [window] field the window
    returned is [get_window] of that field, with the session it was given;
    on this path [process_window] writes nothing. *)
Theorem valid_selection_advances self session request h0 h w dw
    sn r cn xs s target :
  process_window_resolve self session request h0 = (Ok w, h) →
  is_window h w dw → dw !! PStr "required" = None →
  is_request h request sn (PStr r) cn →
  window_options h dw xs → first_option h r xs s →
  getitem h s (PStr "window") = Ok target →
  py_hashable h target = true → mapped_windows self !! target = None →
  process_window self session request h0 =
    (let! window := get_window self target in ret (window, session)) h ∧
  snd (process_window self session request h0) = h.
Proof.
  intros Hres Hw Hreq Hq Hxs Hfirst Htarget Hk Hnone.
  assert (process_window self session request h0 =
    (let! window := get_window self target in ret (window, session)) h)
    as Hpw.
  { unfold process_window. rewrite (bind_ok _ _ _ _ _ Hres).
    rewrite (transition_select _ _ _ _ _ _ _ _ _ Hw Hreq Hq).
    unfold process_window_select. destruct Hw as [Hd _].
    rewrite (bind_ok _ _ _ _ _
               (get_selected_option_first _ _ _ _ _ _ _ _ _ _
                  Hd Hxs Hq Hfirst)).
    apply getitem_field_inv in Htarget as (ls & ds & -> & Hls & Htarget).
    py_norm.
    rewrite (bind_getitem _ _ _ _ target) by eauto using getitem_field_Some.
    rewrite (bind_in_mapped _ _ _ _ Hk), Hnone.
    rewrite bool_decide_eq_false_2 by (by intros [? ?]).
    by rewrite (bind_getitem _ _ _ _ target)
      by eauto using getitem_field_Some. }
  split; [done|]. rewrite Hpw. unfold bind, ret.
  pose proof (get_window_heap self target h) as Hh.
  by destruct (get_window self target h) as [[?|?] ?].
Qed.

Lemma valid_selection_advances_witness :
  process_window (Scenario.app "HOME") (PRef 21) (PRef 31)
    (Scenario.world (PStr "HOME") (PRef 22)) =
  (Ok (PRef 3, PRef 21), Scenario.world (PStr "HOME") (PRef 22)).
Proof.
  rewrite (proj1 (valid_selection_advances (Scenario.app "HOME") (PRef 21)
             (PRef 31)
             (Scenario.world (PStr "HOME") (PRef 22))
             (Scenario.world (PStr "HOME") (PRef 22))
             (PRef 2) Scenario.home_window
             (PStr "s1") "1" (PStr "84") Scenario.home_options (PRef 11)
             (PStr "W")
             ltac:(compute_done)
             ltac:(split; [by eexists|compute_done])
             ltac:(compute_done)
             ltac:(exists (Scenario.request_of "1");
                   split; [by eexists|compute_done])
             ltac:(exists (PRef 10); split; [compute_done|by eexists])
             ltac:(exists [], [PRef 12; PRef 19]; split; [done|];
                   split; [constructor|compute_done])
             ltac:(compute_done) ltac:(reflexivity)
             ltac:(apply lookup_empty))).
  compute_done.
Defined.

(** X4: a window without [required] whose options iterate to nothing (an
    empty list, but also an empty dict or an empty string) is a dead end:
    whatever the request text, [process_window] re-prompts with the
    validation message. *)
Theorem empty_options_always_reprompt self session request h0 h lw dw
    sn rs cn options :
  process_window_resolve self session request h0 = (Ok (PRef lw), h) →
  is_window h (PRef lw) dw → dw !! PStr "required" = None →
  is_request h request sn rs cn →
  dw !! PStr "options" = Some options → iter_items h options = Ok [] →
  process_window self session request h0 =
    (Ok (PRef lw, session),
     <[lw := PDict (<[PStr "message" := invalid_option_message]> dw)]> h).
Proof.
  intros Hres Hw Hreq Hq Hopt Hiter.
  unfold process_window. rewrite (bind_ok _ _ _ _ _ Hres).
  rewrite (transition_select _ _ _ _ _ _ _ _ _ Hw Hreq Hq).
  destruct Hw as [(? & [= <-] & Hlw) _].
  apply select_none_reprompt; [done|]. unfold get_selected_option.
  rewrite (bind_getitem _ _ _ _ options) by eauto using getitem_field_Some.
  by rewrite (bind_iter _ _ _ _ Hiter).
Qed.

Lemma empty_options_always_reprompt_witness :
  process_window (Scenario.app "HOME") (PRef 21) (PRef 32)
    (Scenario.world (PStr "NEXT") (PRef 22)) =
  (Ok (PRef 5, PRef 21),
   <[5%positive := PDict (<[PStr "message" := invalid_option_message]>
                            Scenario.next_window)]>
     (Scenario.world (PStr "NEXT") (PRef 22))).
Proof.
  apply (empty_options_always_reprompt (Scenario.app "HOME") (PRef 21)
           (PRef 32)
           (Scenario.world (PStr "NEXT") (PRef 22))
           (Scenario.world (PStr "NEXT") (PRef 22))
           5%positive Scenario.next_window
           (PStr "s1") (PStr "34") (PStr "84") (PRef 17)).
  - compute_done.
  - split; [by eexists|compute_done].
  - compute_done.
  - exists (Scenario.request_of "34"). split; [by eexists|compute_done].
  - compute_done.
  - compute_done.
Defined.

(** The window declares no required spec: the key is missing, or its
    value is [None] (line 95 and the test of line 101). *)
Lemma transition_without_required self h w dw session request sn rs cn :
  is_window h w dw →
  dw !! PStr "required" = None ∨ dw !! PStr "required" = Some PNone →
  is_request h request sn rs cn →
  process_window_transition self w session request h =
  process_window_select self w session request sn h.
Proof.
  intros Hw [Hreq|Hreq] Hq; [eauto using transition_select|].
  destruct Hw as ((lw & -> & Hw) & [o Ho] & [t Ht] & [a Ha]).
  destruct Hq as (dq & (lq & -> & Hq) & Hsn & Hrs & Hcn).
  unfold process_window_transition.
  rewrite (bind_getitem _ _ _ _ o) by eauto using getitem_field_Some.
  rewrite (bind_getitem _ _ _ _ t) by eauto using getitem_field_Some.
  rewrite (bind_getitem _ _ _ _ a) by eauto using getitem_field_Some.
  rewrite (bind_contains _ _ _ _ true)
    by (by erewrite contains_field, bool_decide_eq_true_2).
  rewrite (bind_getitem _ _ _ _ PNone) by eauto using getitem_field_Some.
  rewrite (bind_getitem _ _ _ _ sn) by eauto using getitem_field_Some.
  rewrite (bind_getitem _ _ _ _ rs) by eauto using getitem_field_Some.
  rewrite (bind_getitem _ _ _ _ cn) by eauto using getitem_field_Some.
  by rewrite decide_True.
Qed.

(** X13: a window that carries the key [required] with the value [None]
    is handled exactly as a window without the key: by option matching. *)
Theorem required_none_is_no_required self session request h0 h w dw
    sn rs cn :
  process_window_resolve self session request h0 = (Ok w, h) →
  is_window h w dw → dw !! PStr "required" = Some PNone →
  is_request h request sn rs cn →
  process_window self session request h0 =
  process_window_select self w session request sn h.
Proof.
  intros Hres Hw Hreq Hq. unfold process_window.
  rewrite (bind_ok _ _ _ _ _ Hres).
  eauto using transition_without_required.
Qed.

Lemma required_none_is_no_required_witness :
  process_window (Scenario.app "HOME") (PRef 21) (PRef 31)
    (Corner.world (PStr "PLAIN")) =
  (Ok (PRef 5, PRef 21), Corner.world (PStr "PLAIN")).
Proof.
  rewrite (required_none_is_no_required (Scenario.app "HOME") (PRef 21)
             (PRef 31) (Corner.world (PStr "PLAIN"))
             (Corner.world (PStr "PLAIN")) (PRef 9) Corner.plain_window
             (PStr "s1") (PStr "1") (PStr "84")
             ltac:(compute_done)
             ltac:(split; [exists 9%positive; split; [done|compute_done]
                          |compute_done])
             ltac:(compute_done)
             ltac:(exists (Scenario.request_of "1");
                   split; [exists 31%positive; split; [done|compute_done]
                          |compute_done])).
  compute_done.
Defined.

(** X5: a window without a required spec whose options are [None], as
    [create_window] leaves them by default, cannot take a request: the
    option search iterates [None] and [process_window] raises
    [TypeError]. *)
Theorem absent_options_cannot_select self session request h0 h w dw
    sn rs cn :
  process_window_resolve self session request h0 = (Ok w, h) →
  is_window h w dw →
  dw !! PStr "required" = None ∨ dw !! PStr "required" = Some PNone →
  is_request h request sn rs cn →
  dw !! PStr "options" = Some PNone →
  process_window self session request h0 = (Raise TypeError, h).
Proof.
  intros Hres Hw Hreq Hq Hopt. unfold process_window.
  rewrite (bind_ok _ _ _ _ _ Hres).
  rewrite (transition_without_required _ _ _ _ _ _ _ _ _ Hw Hreq Hq).
  destruct Hw as [(lw & -> & Hlw) _].
  unfold process_window_select, get_selected_option. py_norm.
  by rewrite (bind_getitem _ _ _ _ PNone) by eauto using getitem_field_Some.
Qed.

Lemma absent_options_cannot_select_witness :
  process_window (Scenario.app "HOME") (PRef 21) (PRef 31)
    (Corner.world (PStr "NOTICE")) =
  (Raise TypeError, Corner.world (PStr "NOTICE")).
Proof.
  apply (absent_options_cannot_select (Scenario.app "HOME") (PRef 21)
           (PRef 31) (Corner.world (PStr "NOTICE"))
           (Corner.world (PStr "NOTICE")) (PRef 7) Corner.notice_window
           (PStr "s1") (PStr "1") (PStr "84")).
  - compute_done.
  - split; [exists 7%positive; split; [done|compute_done]|compute_done].
  - left. compute_done.
  - exists (Scenario.request_of "1").
    split; [exists 31%positive; split; [done|compute_done]|compute_done].
  - compute_done.
Defined.

(** X12: the transition subscripts [options], [type] and [active] before
    it looks at anything else, so a window dict that lacks one of the three
    keys makes [process_window] raise [KeyError] whatever the request,
    although neither [type] nor [active] is used afterwards. *)
Theorem window_missing_field_raises self session request h0 h w dw :
  process_window_resolve self session request h0 = (Ok w, h) →
  is_dict h w dw →
  dw !! PStr "options" = None ∨ dw !! PStr "type" = None ∨
    dw !! PStr "active" = None →
  process_window self session request h0 = (Raise KeyError, h).
Proof.
  intros Hres (lw & -> & Hw) Hmiss. unfold process_window.
  rewrite (bind_ok _ _ _ _ _ Hres).
  unfold process_window_transition, bind, py_getitem, lift.
  rewrite !(getitem_field _ _ _ _ Hw).
  destruct (dw !! PStr "options"); [|done].
  destruct (dw !! PStr "type"); [|done].
  destruct (dw !! PStr "active"); [|done].
  by destruct Hmiss as [?|[?|?]].
Qed.

Lemma window_missing_field_raises_witness :
  process_window (Scenario.app "HOME") (PRef 21) (PRef 31)
    (Corner.world (PStr "BARE")) =
  (Raise KeyError, Corner.world (PStr "BARE")).
Proof.
  apply (window_missing_field_raises (Scenario.app "HOME") (PRef 21)
           (PRef 31) (Corner.world (PStr "BARE"))
           (Corner.world (PStr "BARE")) (PRef 8) Corner.bare_window).
  - compute_done.
  - exists 8%positive. split; [done|compute_done].
  - right. left. compute_done.
Defined.

Lemma next_match_missing_field h request sn r cn
    (before after : list pyval) s ds :
  is_request h request sn (PStr r) cn → no_option h r before →
  is_dict h s ds → ds !! PStr "option" = None →
  next_match request (before ++ s :: after)%list h = (Raise KeyError, h).
Proof.
  intros (dq & (lq & -> & Hq) & _ & Hr & _) Hbefore (ls & -> & Hs) Hmiss.
  induction Hbefore as [|x xs (o & Hx & Hne) _ IH]; cbn [app next_match].
  - unfold bind, py_getitem, lift.
    by rewrite (getitem_field _ _ _ _ Hs), Hmiss.
  - rewrite (bind_getitem _ _ _ _ _ Hx).
    rewrite (bind_getitem _ _ _ _ (PStr r)) by eauto using getitem_field_Some.
    rewrite (bind_eq _ _ _ _ (bool_decide (o = PStr r)))
      by (by apply eq_val_scalar_r).
    by rewrite bool_decide_eq_false_2.
Qed.

(** X6: the option search is lazy and reads the entries in order: an entry
    without an [option] field that comes before any match makes
    [get_selected_option] raise [KeyError], whatever follows it. *)
Theorem option_without_field_raises self h w dw request sn r cn
    (before after : list pyval) s ds :
  is_dict h w dw →
  window_options h dw (before ++ s :: after)%list →
  is_request h request sn (PStr r) cn →
  no_option h r before →
  is_dict h s ds → ds !! PStr "option" = None →
  get_selected_option self w request h = (Raise KeyError, h).
Proof.
  intros (lw & -> & Hw) (options & Ho & lo & -> & Hlo) Hq Hbefore Hs Hmiss.
  unfold get_selected_option.
  rewrite (bind_getitem _ _ _ _ (PRef lo)) by eauto using getitem_field_Some.
  rewrite (bind_iter _ _ _ (before ++ s :: after)%list)
    by (by unfold iter_items; rewrite Hlo).
  eauto using next_match_missing_field.
Qed.

Lemma option_without_field_raises_witness :
  process_window (Scenario.app "HOME") (PRef 21) (PRef 31)
    (Corner.world (PStr "ODD")) =
  (Raise KeyError, Corner.world (PStr "ODD")) ∧
  get_selected_option (Scenario.app "HOME") (PRef 42) (PRef 31)
    (Corner.world (PStr "ODD")) =
  (Raise KeyError, Corner.world (PStr "ODD")).
Proof.
  split; [compute_done|].
  apply (option_without_field_raises (Scenario.app "HOME")
           (Corner.world (PStr "ODD")) (PRef 42) Corner.odd_window (PRef 31)
           (PStr "s1") "1" (PStr "84") [] [PRef 11] (PRef 41)
           Corner.unlabelled_option).
  - exists 42%positive. split; [done|compute_done].
  - exists (PRef 40). split; [compute_done|].
    exists 40%positive. split; [done|compute_done].
  - exists (Scenario.request_of "1").
    split; [exists 31%positive; split; [done|compute_done]|compute_done].
  - constructor.
  - exists 41%positive. split; [done|compute_done].
  - compute_done.
Defined.

(** ** New sessions *)

(** X1: when the session manager knows no session for the request and no
    processor is registered under the initial window's name, a request
    makes [process_request] allocate a session holding the request's
    session and cell numbers, [None] for its variables and the name of the
    registry's initial window as its window, hand it to [save], and return
    the registry's window object; the request text plays no part. *)
Theorem new_session_static self request sn rs cn h h0 iw lreg dreg lw dw
    name :
  is_request h request sn rs cn →
  sm_get (session_manager self) sn cn h = (Ok PNone, h0) →
  initial_window self = PStr iw →
  mapped_windows self !! PStr iw = None →
  windows self = PRef lreg → h0 !! lreg = Some (PDict dreg) →
  dreg !! PStr iw = Some (PRef lw) →
  h0 !! lw = Some (PDict dw) → dw !! PStr "name" = Some name →
  process_request self request h =
  (sm_save (session_manager self) (PRef (fresh (dom h0))) ;;
   ret (PRef lw))
    (<[fresh (dom h0) :=
         PDict (<[PStr "window" := name]>
                  (dict_of [("session_nr", sn); ("variables", PNone);
                            ("cell_nr", cn); ("window", PStr iw)]))]> h0).
Proof.
  intros (dq & (lq & -> & Hq) & Hsn & Hrs & Hcn) Hget Hiw Hnone Hwin Hreg
         Hentry Hw Hname.
  set (ls := fresh (dom h0)).
  assert (h0 !! ls = None) as Hfresh by apply not_elem_of_dom, is_fresh.
  unfold process_request.
  rewrite (bind_getitem _ _ _ _ sn) by eauto using getitem_field_Some.
  rewrite (bind_getitem _ _ _ _ rs) by eauto using getitem_field_Some.
  rewrite (bind_getitem _ _ _ _ cn) by eauto using getitem_field_Some.
  rewrite (bind_ok _ _ _ _ _ Hget). py_norm. rewrite Hiw.
  set (h1 := <[ls := PDict (dict_of [("session_nr", sn); ("variables", PNone);
                                     ("cell_nr", cn); ("window", PStr iw)])]>
               h0).
  rewrite (bind_ok _ _ _ _ _
             (eq_refl : create_session sn cn (PStr iw) PNone h0 =
                        (Ok (PRef ls), h1))).
  py_norm.
  assert (h1 !! lreg = Some (PDict dreg)) as Hreg1.
  { unfold h1. rewrite lookup_insert_ne; [done|congruence]. }
  assert (h1 !! lw = Some (PDict dw)) as Hw1.
  { unfold h1. rewrite lookup_insert_ne; [done|congruence]. }
  rewrite (bind_in_mapped _ _ _ _ (eq_refl : py_hashable h1 (PStr iw) = true)).
  rewrite Hnone, bool_decide_eq_false_2 by (by intros [? ?]).
  py_norm.
  rewrite (bind_cong_l _ (ret (PRef lw)) _ h1 h1).
  2:{ rewrite (get_window_lookup _ _ _ _ _ Hwin Hreg1). cbn [py_hashable].
      by rewrite Hentry. }
  py_norm. unfold process_request_finish.
  rewrite (bind_getitem _ _ _ _ name) by eauto using getitem_field_Some.
  erewrite (bind_ok (py_setitem _ _ _))
    by (apply setitem_field; unfold h1; apply lookup_insert_eq).
  unfold h1. by rewrite insert_insert_eq.
Qed.

Lemma new_session_static_witness :
  process_request (Scenario.app "HOME") (PRef 31) Scenario.fresh_world =
  (Ok (PRef 2),
   <[20%positive := PDict {[ PStr "s1" := PRef 34 ]}]>
     (<[34%positive := PDict (Scenario.session_of (PStr "HOME") PNone)]>
        Scenario.fresh_world)).
Proof.
  rewrite (new_session_static (Scenario.app "HOME") (PRef 31)
             (PStr "s1") (PStr "1") (PStr "84")
             Scenario.fresh_world Scenario.fresh_world "HOME" 1%positive
             (dict_of [("HOME", PRef 2); ("W", PRef 3); ("AGE", PRef 4);
                       ("NEXT", PRef 5); ("BROKEN", PRef 6)])
             2%positive Scenario.home_window (PStr "HOME")
             ltac:(exists (Scenario.request_of "1");
                   split; [exists 31%positive; split; [done|compute_done]
                          |compute_done])
             ltac:(compute_done) eq_refl ltac:(apply lookup_empty) eq_refl
             ltac:(compute_done) ltac:(compute_done) ltac:(compute_done)
             ltac:(compute_done)).
  compute_done.
Defined.

(** X14: a processor registered under the name of the current window that
    answers with no window is not the end of the resolution: line 89 falls
    back to the static registry, on the heap the processor left. *)
Theorem processor_without_window_falls_back self session request name
    h0 ha h1 (p : processor) s' h2 :
  getitem h0 session (PStr "window") = Ok name →
  Spec.cache_scoped self name request h0 = (Ok PNone, ha) →
  Spec.cache_unscoped self name ha = (Ok PNone, h1) →
  py_hashable h1 name = true → mapped_windows self !! name = Some p →
  p session request h1 = (Ok (PNone, s'), h2) →
  process_window_resolve self session request h0 = get_window self name h2.
Proof.
  intros Hname Hscoped Hunscoped Hk Hp Hrun.
  rewrite resolve_refines. unfold Spec.resolve_in_order.
  rewrite (bind_getitem _ _ _ _ _ Hname). cbn [Spec.first_present].
  rewrite (bind_ok _ _ _ _ _ Hscoped). py_norm.
  rewrite (bind_ok _ _ _ _ _ Hunscoped). py_norm.
  unfold Spec.dynamic_resolver. py_norm.
  rewrite (bind_in_mapped _ _ _ _ Hk), Hp, bool_decide_eq_true_2 by eauto.
  py_norm.
  rewrite (bind_ok _ _ _ _ _
             (eq_trans (get_mapped_window_registered _ _ _ _ _ _ Hk Hp) Hrun)).
  py_norm. unfold Spec.static_registry, bind, ret.
  destruct (get_window self name h2) as [[w|e] h3]; [|done].
  by destruct (decide (w = PNone)) as [->|].
Qed.

Lemma processor_without_window_falls_back_witness :
  process_window_resolve Corner.app_silent (PRef 21) (PRef 31)
    (Scenario.world (PStr "HOME") (PRef 22)) =
  (Ok (PRef 2), Scenario.world (PStr "HOME") (PRef 22)).
Proof.
  rewrite (processor_without_window_falls_back Corner.app_silent (PRef 21)
             (PRef 31) (PStr "HOME")
             (Scenario.world (PStr "HOME") (PRef 22))
             (Scenario.world (PStr "HOME") (PRef 22))
             (Scenario.world (PStr "HOME") (PRef 22))
             Corner.silent_processor (PRef 21)
             (Scenario.world (PStr "HOME") (PRef 22))
             ltac:(compute_done) eq_refl eq_refl eq_refl
             ltac:(apply lookup_insert_eq) eq_refl).
  compute_done.
Defined.

(** X15: a request dict that lacks [session_nr], [request_str] or
    [cell_nr] makes [process_request] raise [KeyError] before the session
    manager is consulted: nothing is read from the application and the heap
    is left as it was. *)
Theorem request_missing_field_raises self h request dq :
  is_dict h request dq →
  dq !! PStr "session_nr" = None ∨ dq !! PStr "request_str" = None ∨
    dq !! PStr "cell_nr" = None →
  process_request self request h = (Raise KeyError, h).
Proof.
  intros (lq & -> & Hq) Hmiss.
  unfold process_request, bind, py_getitem, lift.
  rewrite !(getitem_field _ _ _ _ Hq).
  destruct (dq !! PStr "session_nr"); [|done].
  destruct (dq !! PStr "request_str"); [|done].
  destruct (dq !! PStr "cell_nr"); [|done].
  by destruct Hmiss as [?|[?|?]].
Qed.

Lemma request_missing_field_raises_witness :
  process_request (Scenario.app "HOME") (PRef 35)
    (Corner.world (PStr "HOME")) =
  (Raise KeyError, Corner.world (PStr "HOME")).
Proof.
  apply (request_missing_field_raises _ _ _ Corner.partial_request).
  - exists 35%positive. split; [done|compute_done].
  - right. left. compute_done.
Defined.

(** ** Building and projecting options *)

(** X11: projecting an option built by [create_option] gives, whatever
    the four arguments, a new dict whose [option] is the option text and
    whose [value] is the display text; the target window and the active
    flag do not reach the response. *)
Theorem option_response_of_create_option option display window active h :
  (let! built := create_option option display window active in
   option_response built) h =
  (Ok (PRef (fresh (dom (<[fresh (dom h) :=
                            PDict (dict_of [("option", option);
                                            ("display", display);
                                            ("window", window);
                                            ("active", active)])]> h)))),
   <[fresh (dom (<[fresh (dom h) :=
                     PDict (dict_of [("option", option);
                                     ("display", display);
                                     ("window", window);
                                     ("active", active)])]> h)) :=
       PDict (option_fields option display)]>
     (<[fresh (dom h) :=
          PDict (dict_of [("option", option); ("display", display);
                          ("window", window); ("active", active)])]> h)).
Proof.
  unfold create_option, py_alloc. unfold bind at 1.
  apply (option_response_ok _ _ (option, display)).
  eexists. split; [eexists; split; [done|apply lookup_insert_eq]|done].
Qed.
